(** * Flight API: a shallow embedding of [src/server.ts]

    The service keeps one process-wide [Map<string, Route>] that is filled
    once from the data set, and answers four kinds of requests over it:
    route listing, direct-flight search, connecting-flight search and
    booking.  Every handler of [server.ts] is a function of the map and of
    the request parameters here; the booking handler, which mutates a
    [Flight] object in place, returns the map after the mutation.

    Modelling conventions.
    - JavaScript numbers that hold seat counts and prices are integers [Z].
      A number that may be [NaN] (a time value) is an [option Z] with [None]
      for [NaN]; a quotient is a rational [Q].
    - Strings are [string]; [===] on strings is [String.eqb] and [<=] on
      strings is [String.leb] (lexicographic on character codes).
    - The objects of the data set come from a JSON document, so they form a
      tree: a [Flight] object belongs to exactly one [Route] object.  The
      identity of a [Flight] object is its position [(i, j)]: the [j]-th
      itinerary of the [i]-th value of the map.
    - [Date.parse] belongs to the JavaScript runtime and is a parameter of
      the model, as is the rendering of a number that is not an integer. *)

From Stdlib Require Import ZArith QArith String Ascii List Bool Lia.
From stdpp Require Import base option list strings pretty.

Local Open Scope Z_scope.

(** ** Data model ([interface Flight], [interface Route]) *)

Record Prices := mkPrices {
  currency : string;
  adult : Z;
  child : Z
}.

Record Flight := mkFlight {
  flight_id : string;
  departureAt : string;
  arrivalAt : string;
  availableSeats : Z;
  prices : Prices
}.

Record Route := mkRoute {
  route_id : string;
  departureDestination : string;
  arrivalDestination : string;
  itineraries : list Flight
}.

(** ** The route map ([new Map<string, Route>()])

    A JavaScript [Map] iterates in the order in which its keys were first
    inserted, and [set] on a key that is present replaces the value where
    it stands. *)

Abbreviation RouteMap := (list (string * Route)) (only parsing).

Fixpoint Map_set (k : string) (v : Route) (m : RouteMap) : RouteMap :=
  match m with
  | [] => [(k, v)]
  | (k', v') :: m' =>
      if String.eqb k' k then (k, v) :: m' else (k', v') :: Map_set k v m'
  end.

Fixpoint Map_get (k : string) (m : RouteMap) : option Route :=
  match m with
  | [] => None
  | (k', v') :: m' => if String.eqb k' k then Some v' else Map_get k m'
  end.

Definition Map_values (m : RouteMap) : list Route := map snd m.

(** [flightData.forEach((route) => routes.set(route.route_id, route))] *)
Definition load (flightData : list Route) : RouteMap :=
  fold_left (fun routes route => Map_set (route_id route) route routes)
            flightData [].

(** ** Object identity and in-place mutation *)

(** A list together with the position of each element: the elements of an
    array of objects, each with its identity. *)
Definition indexed {A : Type} (l : list A) : list (nat * A) := imap pair l.

Abbreviation FlightRef := (nat * nat)%type (only parsing).

(** A [Set<Flight>]: flight objects in insertion order, at most one
    entry per object. *)
Abbreviation FlightSet := (list (FlightRef * Flight)) (only parsing).

Definition route_at (m : RouteMap) (i : nat) : option Route :=
  snd <$> m !! i.

Definition flight_at (m : RouteMap) (i j : nat) : option Flight :=
  route_at m i ≫= fun r => itineraries r !! j.

Definition set_availableSeats (f : Flight) (n : Z) : Flight :=
  {| flight_id := flight_id f;
     departureAt := departureAt f;
     arrivalAt := arrivalAt f;
     availableSeats := n;
     prices := prices f |}.

Definition set_itineraries (r : Route) (fs : list Flight) : Route :=
  {| route_id := route_id r;
     departureDestination := departureDestination r;
     arrivalDestination := arrivalDestination r;
     itineraries := fs |}.

(** The effect on the map of assigning to a field of the flight object at
    [(i, j)]: that object changes, every other object is the same. *)
Definition update_flight (m : RouteMap) (i j : nat) (g : Flight -> Flight)
  : RouteMap :=
  alter (fun kv => (fst kv, set_itineraries (snd kv)
                              (alter g j (itineraries (snd kv))))) i m.

(** ** Responses

    [res.json(x)] answers with status 200 and body [x];
    [res.status(c).json({ error: msg })] answers with status [c]. *)

Inductive Response (A : Type) : Type :=
| res_json (status : Z) (payload : A)
| res_error (status : Z) (error : string).

Arguments res_json {A} status payload.
Arguments res_error {A} status error.

(** ** [GET /routes] and [GET /routes/:route_id] *)

Definition get_routes (routes : RouteMap) : Response (list Route) :=
  res_json 200 (Map_values routes).

Definition get_route (routes : RouteMap) (routeId : string) : Response Route :=
  match Map_get routeId routes with
  | Some route => res_json 200 route
  | None => res_error 404 "Route not found"
  end.

(** ** [POST /book] *)

Record Confirmation := mkConfirmation {
  name : string;
  flightId : string;
  numSeats : Z;
  totalPrice : Z;
  departure : string;
  arrival : string;
  departureTime : string;
  arrivalTime : string
}.

(** The two locals of the handler.  A reference to an object is the
    position of the object together with the object as the scan saw it. *)
Record Booked := mkBooked {
  bookedFlight : option (FlightRef * Flight);
  bookedRoute : option (nat * Route)
}.

Definition nothing_booked : Booked :=
  {| bookedFlight := None; bookedRoute := None |}.

(** The body of the inner [forEach]: an assignment at every match. *)
Definition scan_flight (id : string) (i : nat) (route : Route)
    (st : Booked) (jf : nat * Flight) : Booked :=
  if String.eqb (flight_id (snd jf)) id
  then {| bookedFlight := Some ((i, fst jf), snd jf);
          bookedRoute := Some (i, route) |}
  else st.

Definition scan_route (id : string) (st : Booked) (ir : nat * Route)
  : Booked :=
  fold_left (scan_flight id (fst ir) (snd ir))
            (indexed (itineraries (snd ir))) st.

(** [routes.forEach((route) => route.itineraries.forEach(...))] *)
Definition scan (routes : RouteMap) (id : string) : Booked :=
  fold_left (scan_route id) (indexed (Map_values routes)) nothing_booked.

Definition book (routes : RouteMap) (name flightId : string) (numSeats : Z)
  : RouteMap * Response Confirmation :=
  let st := scan routes flightId in
  match bookedFlight st, bookedRoute st with
  | Some ((i, j), bf), Some (_, br) =>
      if availableSeats bf <? numSeats
      then (routes, res_error 400 "Not enough seats available")
      else
        let routes' :=
          update_flight routes i j
            (fun f => set_availableSeats f (availableSeats f - numSeats)) in
        let totalPrice := numSeats * adult (prices bf) in
        (routes',
         res_json 200
           {| name := name;
              flightId := flightId;
              numSeats := numSeats;
              totalPrice := totalPrice;
              departure := departureDestination br;
              arrival := arrivalDestination br;
              departureTime := departureAt bf;
              arrivalTime := arrivalAt bf |})
  | _, _ => (routes, res_error 404 "Flight not found")
  end.




(** ** Numbers that may be [NaN], and dates

    A time value is a number of milliseconds since the epoch, or [NaN]
    for an invalid date.  Every comparison with [NaN] is false and every
    arithmetic operation on [NaN] gives [NaN].  The arithmetic on time
    values is exact here; it is exact in the program as long as the result
    stays below 2^53 in absolute value. *)

Definition num_sub (a b : option Z) : option Z :=
  a ≫= fun x => b ≫= fun y => Some (x - y).

Definition num_add (a b : option Z) : option Z :=
  a ≫= fun x => b ≫= fun y => Some (x + y).

Definition Math_abs (a : option Z) : option Z := Z.abs <$> a.

Definition num_le (a b : option Z) : bool :=
  match a, b with
  | Some x, Some y => x <=? y
  | _, _ => false
  end.

(** [a / d], a quotient that need not be an integer. *)
Definition num_div (a : option Z) (d : Z) : option Q :=
  (fun x => Qdiv (inject_Z x) (inject_Z d)) <$> a.

(** [q < c] *)
Definition quot_lt (q : option Q) (c : Z) : bool :=
  match q with
  | Some q => negb (Qle_bool (inject_Z c) q)
  | None => false
  end.

(** Truthiness of a query parameter: [!x] is false exactly when [x] is a
    string that is not empty. *)
Definition truthy (x : option string) : bool :=
  match x with
  | Some s => negb (String.eqb s "")
  | None => false
  end.

(** [s === x] for a string [s] and a query parameter [x]. *)
Definition strict_eq (s : string) (x : option string) : bool :=
  match x with
  | Some s' => String.eqb s s'
  | None => false
  end.

(** The largest time value of a [Date], 8.64e15 ms, beyond which the
    constructor makes an invalid date. *)
Definition TimeClip (t : Z) : option Z :=
  if Z.abs t <=? 8640000000000000 then Some t else None.

Section Runtime.

(** [Date.parse]: the time value of a date string, [None] for [NaN]. *)
Variable Date_parse : string -> option Z.

(** The string of a number that is not an integer in the exact range. *)
Variable Number_toString_frac : Q -> string.

(** [new Date(s).getTime()] *)
Definition Date_getTime (s : string) : option Z :=
  Date_parse s ≫= TimeClip.

(** [new Date(n).getTime()] for a number [n] *)
Definition Date_of_number (n : option Z) : option Z := n ≫= TimeClip.

(** [Date.parse(x as string)] and [new Date(x).getTime()] for a query
    parameter [x]; both are [NaN] when the parameter is missing. *)
Definition Date_parse_query (x : option string) : option Z :=
  x ≫= Date_parse.

Definition Date_getTime_query (x : option string) : option Z :=
  x ≫= Date_getTime.

(** The string of a number: the decimal digits of an integer, with its
    sign, when the number is an integer that a double holds exactly. *)
Definition Number_toString (q : Q) : string :=
  let r := Qred q in
  if (Z.pos (Qden r) =? 1) && (Z.abs (Qnum r) <=? 9007199254740992)
  then pretty (Qnum r)
  else Number_toString_frac q.

Definition num_toString (q : option Q) : string :=
  match q with
  | Some q => Number_toString q
  | None => "NaN"
  end.

(** *** [GET /direct-flights/:departure/:arrival] *)

Definition is_direct (departure arrival : string) (route : Route) : bool :=
  String.eqb (departureDestination route) departure
  && String.eqb (arrivalDestination route) arrival.

Definition directRoutes (routes : RouteMap) (departure arrival : string)
  : list (nat * Route) :=
  List.filter (fun ir => is_direct departure arrival (snd ir))
              (indexed (Map_values routes)).

Definition Set_has (x : FlightRef) (s : FlightSet) : bool :=
  existsb (fun y => bool_decide (fst y = x)) s.

Definition Set_add (x : FlightRef * Flight) (s : FlightSet) : FlightSet :=
  if Set_has (fst x) s then s else s ++ [x].

(** The condition on the two time hints. *)
Definition in_window (departureTime arrivalTime : option string)
    (flight : Flight) : bool :=
  let flightDepartureTime := Date_getTime (departureAt flight) in
  let flightArrivalTime := Date_getTime (arrivalAt flight) in
  (negb (truthy departureTime)
   || num_le (Math_abs (num_sub
                (Date_of_number (Date_parse_query departureTime))
                flightDepartureTime))
             (Some 86400000))
  && (negb (truthy arrivalTime)
      || num_le (Math_abs (num_sub
                   (Date_of_number (Date_parse_query arrivalTime))
                   flightArrivalTime))
                (Some 86400000)).

Definition direct_flight (departureTime arrivalTime : option string)
    (i : nat) (set : FlightSet) (jf : nat * Flight) : FlightSet :=
  if 0 <? availableSeats (snd jf)
  then if in_window departureTime arrivalTime (snd jf)
       then Set_add ((i, fst jf), snd jf) set
       else set
  else set.

Definition direct_route (departureTime arrivalTime : option string)
    (set : FlightSet) (ir : nat * Route) : FlightSet :=
  fold_left (direct_flight departureTime arrivalTime (fst ir))
            (indexed (itineraries (snd ir))) set.

Definition directFlightsSet (routes : RouteMap) (departure arrival : string)
    (departureTime arrivalTime : option string) : FlightSet :=
  fold_left (direct_route departureTime arrivalTime)
            (directRoutes routes departure arrival) [].

(** [Array.from(directFlightsSet)] *)
Definition directFlights (routes : RouteMap) (departure arrival : string)
    (departureTime arrivalTime : option string) : list Flight :=
  map snd (directFlightsSet routes departure arrival
                            departureTime arrivalTime).

Definition direct_flights (routes : RouteMap) (departure arrival : string)
    (departureTime arrivalTime : option string) : Response (list Flight) :=
  let found :=
    directFlights routes departure arrival departureTime arrivalTime in
  if (0 <? length found)%nat
  then res_json 200 found
  else res_error 404 "No direct flights available".

(** *** [GET /connection-flights/:departureDestination/:arrivalDestination] *)

Record Connection := mkConnection {
  departureFlight : Flight;
  arrivalFlight : Flight;
  layoverTime : string;
  route : Route
}.

Record Leg := mkLeg {
  leg_departureDestination : string;
  leg_arrivalDestination : string
}.

Record Legs := mkLegs {
  departureRoute : Leg;
  arrivalRoute : Leg
}.

Record Formatted := mkFormatted {
  out_departureFlight : Flight;
  out_arrivalFlight : Flight;
  out_layoverTime : string;
  out_route : Legs
}.

Definition departingRoutes (routes : RouteMap) (dep : string) : list Route :=
  List.filter (fun route => String.eqb (departureDestination route) dep)
              (Map_values routes).

Definition arrivingRoutes (routes : RouteMap) (arr : string) : list Route :=
  List.filter (fun route => String.eqb (arrivalDestination route) arr)
              (Map_values routes).

(** The gap between the arrival of the first flight and the departure of
    the second, in milliseconds. *)
Definition gap (departingFlight arrivingFlight : Flight) : option Z :=
  num_sub (Date_getTime (departureAt arrivingFlight))
          (Date_getTime (arrivalAt departingFlight)).

(** The condition of the innermost [if]. *)
Definition connects (departureTime arrivalTime : option string)
    (departingRoute arrivingRoute : Route)
    (departingFlight arrivingFlight : Flight) : bool :=
  String.eqb (arrivalDestination departingRoute)
             (departureDestination arrivingRoute)
  && String.leb (arrivalAt departingFlight) (departureAt arrivingFlight)
  && quot_lt (num_div (gap departingFlight arrivingFlight)
                      (1000 * 60 * 60)) 24
  && (negb (truthy departureTime)
      || num_le (Date_getTime (departureAt departingFlight))
                (num_add (Date_getTime_query departureTime)
                         (Some (24 * 60 * 60 * 1000))))
  && (negb (truthy arrivalTime)
      || strict_eq (arrivalAt arrivingFlight) arrivalTime).

Definition layover (departingFlight arrivingFlight : Flight) : string :=
  num_toString (num_div (gap departingFlight arrivingFlight) (1000 * 60))
  +:+ " minutes".

(** The body of the innermost [forEach]: a [push] when the pair connects. *)
Definition push_connection (departureTime arrivalTime : option string)
    (departingRoute arrivingRoute : Route) (departingFlight : Flight)
    (acc : list Connection) (arrivingFlight : Flight) : list Connection :=
  if connects departureTime arrivalTime departingRoute arrivingRoute
              departingFlight arrivingFlight
  then acc ++ [ {| departureFlight := departingFlight;
                   arrivalFlight := arrivingFlight;
                   layoverTime := layover departingFlight arrivingFlight;
                   route := departingRoute |} ]
  else acc.

Definition connectingFlights (routes : RouteMap) (dep arr : string)
    (departureTime arrivalTime : option string) : list Connection :=
  fold_left (fun acc departingRoute =>
    fold_left (fun acc arrivingRoute =>
      fold_left (fun acc departingFlight =>
        fold_left (push_connection departureTime arrivalTime
                     departingRoute arrivingRoute departingFlight)
                  (itineraries arrivingRoute) acc)
        (itineraries departingRoute) acc)
      (arrivingRoutes routes arr) acc)
    (departingRoutes routes dep) [].

(** The function given to [connectingFlights.map]. *)
Definition format (arrivalDestination' : string) (flight : Connection)
  : Formatted :=
  let departureRoute :=
    {| leg_departureDestination := departureDestination (route flight);
       leg_arrivalDestination := arrivalDestination (route flight) |} in
  let arrivalRoute :=
    {| leg_departureDestination := arrivalDestination (route flight);
       leg_arrivalDestination := arrivalDestination' |} in
  {| out_departureFlight := departureFlight flight;
     out_arrivalFlight := arrivalFlight flight;
     out_layoverTime := layoverTime flight;
     out_route := {| departureRoute := departureRoute;
                     arrivalRoute := arrivalRoute |} |}.

Definition connection_flights (routes : RouteMap) (dep arr : string)
    (departureTime arrivalTime : option string)
  : Response (list Formatted) :=
  res_json 200
    (map (format arr)
         (connectingFlights routes dep arr departureTime arrivalTime)).

(** *** What the claims say of the two searches *)

(** The hint [x], when it is given, lies within 86,400,000 ms of the time
    that the string [s] stands for. *)
Definition within_a_day (x : option string) (s : string) : Prop :=
  truthy x = true ->
  exists th tf, Date_getTime_query x = Some th /\ Date_getTime s = Some tf
                /\ Z.abs (th - tf) <= 86400000.

(** Flight [f] of route [r] answers a direct-flight query. *)
Definition direct_match (dep arr : string)
    (departureTime arrivalTime : option string) (r : Route) (f : Flight)
  : Prop :=
  departureDestination r = dep /\ arrivalDestination r = arr
  /\ 0 < availableSeats f
  /\ within_a_day departureTime (departureAt f)
  /\ within_a_day arrivalTime (arrivalAt f).

(** The flight objects a direct-flight query keeps, route by route. *)
Definition direct_candidates (departureTime arrivalTime : option string)
    (ir : nat * Route) : FlightSet :=
  map (fun jf => ((fst ir, fst jf), snd jf))
      (List.filter (fun jf => (0 <? availableSeats (snd jf))
                              && in_window departureTime arrivalTime (snd jf))
                   (indexed (itineraries (snd ir)))).

(** Flight [fd] of route [d] and flight [fa] of route [a] connect. *)
Definition valid_connection (departureTime arrivalTime : option string)
    (d a : Route) (fd fa : Flight) : Prop :=
  arrivalDestination d = departureDestination a
  /\ String.leb (arrivalAt fd) (departureAt fa) = true
  /\ (exists t1 t2, Date_getTime (departureAt fa) = Some t1
                    /\ Date_getTime (arrivalAt fd) = Some t2
                    /\ t1 - t2 < 24 * 3600000)
  /\ (truthy departureTime = true ->
      exists t th, Date_getTime (departureAt fd) = Some t
                   /\ Date_getTime_query departureTime = Some th
                   /\ t <= th + 24 * 3600000)
  /\ (truthy arrivalTime = true -> arrivalTime = Some (arrivalAt fa)).

(** The entry pushed for a pair that connects. *)
Definition connection_entry (d : Route) (fd fa : Flight) : Connection :=
  {| departureFlight := fd;
     arrivalFlight := fa;
     layoverTime := layover fd fa;
     route := d |}.

(** The entries in the order of the four nested loops. *)
Definition nested_connections (routes : RouteMap) (dep arr : string)
    (departureTime arrivalTime : option string) : list Connection :=
  flat_map (fun d =>
    flat_map (fun a =>
      flat_map (fun fd =>
        flat_map (fun fa =>
          if connects departureTime arrivalTime d a fd fa
          then [connection_entry d fd fa] else [])
          (itineraries a))
        (itineraries d))
      (arrivingRoutes routes arr))
    (departingRoutes routes dep).

End Runtime.

(** ** A runtime to run the model on concrete data

    [iso_parse] reads the date-time strings of the data set, which have the
    form [YYYY-MM-DDTHH:mm:ss.sssZ], as [Date.parse] does, and is [NaN] on
    every other string. *)

Definition digit (c : ascii) : option Z :=
  let n := Z.of_N (N_of_ascii c) in
  if (48 <=? n) && (n <=? 57) then Some (n - 48) else None.

Fixpoint digits (s : string) (acc : Z) : option Z :=
  match s with
  | EmptyString => Some acc
  | String c s' => digit c ≫= fun d => digits s' (10 * acc + d)
  end.

Definition field (s : string) (start len : nat) : option Z :=
  let t := String.substring start len s in
  if (String.length t =? len)%nat then digits t 0 else None.

Definition char_at (s : string) (pos : nat) (c : string) : bool :=
  String.eqb (String.substring pos 1 s) c.

Definition is_leap (y : Z) : bool :=
  ((y mod 4 =? 0) && negb (y mod 100 =? 0)) || (y mod 400 =? 0).

Definition days_in_month (y m : Z) : Z :=
  if m =? 2 then (if is_leap y then 29 else 28)
  else if (m =? 4) || (m =? 6) || (m =? 9) || (m =? 11) then 30
  else 31.

(** Days from 1970-01-01 to the given day of the Gregorian calendar. *)
Definition days_from_civil (y m d : Z) : Z :=
  let y' := if m <=? 2 then y - 1 else y in
  let era := y' / 400 in
  let yoe := y' - era * 400 in
  let doy := (153 * (if 2 <? m then m - 3 else m + 9) + 2) / 5 + d - 1 in
  let doe := yoe * 365 + yoe / 4 - yoe / 100 + doy in
  era * 146097 + doe - 719468.

Definition iso_parse (s : string) : option Z :=
  if (String.length s =? 24)%nat
     && char_at s 4 "-" && char_at s 7 "-" && char_at s 10 "T"
     && char_at s 13 ":" && char_at s 16 ":" && char_at s 19 "."
     && char_at s 23 "Z"
  then
    y ← field s 0 4; mo ← field s 5 2; d ← field s 8 2;
    h ← field s 11 2; mi ← field s 14 2; sec ← field s 17 2;
    ms ← field s 20 3;
    if (1 <=? mo) && (mo <=? 12) && (1 <=? d) && (d <=? days_in_month y mo)
       && (h <=? 23) && (mi <=? 59) && (sec <=? 59)
    then Some ((((days_from_civil y mo d * 24 + h) * 60 + mi) * 60 + sec)
               * 1000 + ms)
    else None
  else None.

(** No string stands for a number that is not an integer here: the sample
    data below only has whole minutes. *)
Definition no_fraction (q : Q) : string := "?".

(** ** Sample data *)

Definition eur (a c : Z) : Prices :=
  {| currency := "EUR"; adult := a; child := c |}.

Definition F1 : Flight :=
  mkFlight "F1" "2023-03-29T08:00:00.000Z" "2023-03-29T10:00:00.000Z"
           5 (eur 100 50).

Definition F2 : Flight :=
  mkFlight "F2" "2023-03-29T11:00:00.000Z" "2023-03-29T13:00:00.000Z"
           0 (eur 80 40).

(** A second flight with the identifier of [F1], on another route. *)
Definition F1' : Flight :=
  mkFlight "F1" "2023-03-30T09:00:00.000Z" "2023-03-30T12:00:00.000Z"
           9 (eur 70 35).

(** A flight that costs nothing. *)
Definition F4 : Flight :=
  mkFlight "F4" "2023-03-29T09:00:00.000Z" "2023-03-30T09:00:00.000Z"
           3 (eur 0 0).

Definition routeA : Route := mkRoute "A" "X" "Y" [F1].
Definition routeB : Route := mkRoute "B" "Y" "Z" [F2; F1'].
Definition routeB0 : Route := mkRoute "B" "Y" "Z" [F2].
Definition routeC : Route := mkRoute "C" "X" "Z" [F4].

Definition sample : RouteMap := load [routeA; routeB; routeC].

(** Route A from X to Y with a flight that arrives at 10:00, route B from Y
    to Z with a flight that departs at 11:00. *)
Definition two_legs : RouteMap := load [routeA; routeB0].

(** ** What the claims speak of *)

(** The flight [f] at [(i, j)], on route [r], is the last one in the order
    of the scan (routes in map order, then itineraries in array order)
    that carries the identifier [id]. *)
Definition last_with_id (m : RouteMap) (id : string) (i j : nat)
    (r : Route) (f : Flight) : Prop :=
  route_at m i = Some r /\ itineraries r !! j = Some f /\ flight_id f = id /\
  forall i' j' f', flight_at m i' j' = Some f' -> flight_id f' = id ->
    (i' < i)%nat \/ (i' = i /\ (j' <= j)%nat).

(** No flight of any route carries the identifier [id]. *)
Definition unknown_id (m : RouteMap) (id : string) : Prop :=
  Forall (fun r => Forall (fun f => flight_id f <> id) (itineraries r))
         (Map_values m).


(** The locals of the booking handler when they refer to flight [f] at
    [(i, j)] and to its route [r]. *)
Definition found (i j : nat) (r : Route) (f : Flight) : Booked :=
  {| bookedFlight := Some ((i, j), f); bookedRoute := Some (i, r) |}.

(** The assignment [bookedFlight.availableSeats -= numSeats]. *)
Definition take_seats (n : Z) (f : Flight) : Flight :=
  set_availableSeats f (availableSeats f - n).

(** The confirmation of a booking of [n] seats on flight [f] of route [r]. *)
Definition confirmation (name id : string) (n : Z) (r : Route) (f : Flight)
  : Confirmation :=
  {| name := name;
     flightId := id;
     numSeats := n;
     totalPrice := n * adult (prices f);
     departure := departureDestination r;
     arrival := arrivalDestination r;
     departureTime := departureAt f;
     arrivalTime := arrivalAt f |}.

(** ** Forgetting seat counts

    The seat count is the only field that a booking assigns to.  Two maps
    that agree once every seat count is forgotten hold the same routes and
    the same flights. *)

Definition forget_seats (f : Flight) : Flight := set_availableSeats f 0.

Definition forget_route_seats (r : Route) : Route :=
  set_itineraries r (map forget_seats (itineraries r)).

Definition forget_connection_seats (c : Connection) : Connection :=
  {| departureFlight := forget_seats (departureFlight c);
     arrivalFlight := forget_seats (arrivalFlight c);
     layoverTime := layoverTime c;
     route := forget_route_seats (route c) |}.

(** The connections among the routes of a list, in the order of the four
    nested loops; [nested_connections] is this for the values of the map. *)
Definition connections_among (Date_parse : string -> option Z)
    (Number_toString_frac : Q -> string) (rs : list Route)
    (dep arr : string) (departureTime arrivalTime : option string)
  : list Connection :=
  flat_map (fun d =>
    flat_map (fun a =>
      flat_map (fun fd =>
        flat_map (fun fa =>
          if connects Date_parse departureTime arrivalTime d a fd fa
          then [connection_entry Date_parse Number_toString_frac d fd fa]
          else [])
          (itineraries a))
        (itineraries d))
      (List.filter (fun route => String.eqb (arrivalDestination route) arr)
                   rs))
    (List.filter (fun route => String.eqb (departureDestination route) dep)
                 rs).

(** The entry of the map for a route. *)
Definition entry_of (r : Route) : string * Route := (route_id r, r).

(** [r] is the last route of the data set with its identifier. *)
Definition last_route (data : list Route) (r : Route) : Prop :=
  exists l1 l2, data = l1 ++ r :: l2
                /\ Forall (fun r' => route_id r' <> route_id r) l2.

(** ** Positions *)

(** The flights of a small concrete map, position by position. *)
Ltac by_position i j Hat Hid :=
  do 4 (try destruct i as [|i]); do 3 (try destruct j as [|j]);
  vm_compute in Hat; try discriminate Hat;
  injection Hat as <-; vm_compute in Hid; try discriminate Hid;
  first [left; lia | right; lia].

Lemma indexed_snoc {A : Type} (l : list A) (x : A) :
  indexed (l ++ [x]) = indexed l ++ [(length l, x)].
Proof.
  unfold indexed. rewrite imap_app. simpl. by rewrite Nat.add_0_r.
Qed.

Lemma elem_of_indexed {A : Type} (l : list A) (i : nat) (x : A) :
  (i, x) ∈ indexed l <-> l !! i = Some x.
Proof.
  unfold indexed. rewrite elem_of_lookup_imap. split.
  - intros (i' & y & Heq & Hl). by inversion Heq; subst.
  - intros Hl. by exists i, x.
Qed.

Lemma route_at_values (m : RouteMap) (i : nat) :
  route_at m i = Map_values m !! i.
Proof. unfold route_at, Map_values. by rewrite list_lookup_fmap. Qed.

Lemma flight_at_Some (m : RouteMap) (i j : nat) (f : Flight) :
  flight_at m i j = Some f <->
  exists r, Map_values m !! i = Some r /\ itineraries r !! j = Some f.
Proof.
  unfold flight_at. rewrite route_at_values.
  destruct (Map_values m !! i) as [r|]; simpl; split.
  - intros H. by exists r.
  - by intros (r' & [= <-] & H).
  - done.
  - by intros (r' & [=] & _).
Qed.

Lemma Forall_flights (P : Flight -> Prop) (m : RouteMap) :
  Forall (fun r => Forall P (itineraries r)) (Map_values m) <->
  forall i j f, flight_at m i j = Some f -> P f.
Proof.
  split.
  - intros H i j f (r & Hr & Hf)%flight_at_Some.
    rewrite Forall_lookup in H. specialize (H _ _ Hr).
    rewrite Forall_lookup in H. by apply (H _ _ Hf).
  - intros H. apply Forall_lookup. intros i r Hr.
    apply Forall_lookup. intros j f Hf. apply (H i j).
    apply flight_at_Some. by exists r.
Qed.

(** ** The mutation touches one flight object *)

Lemma flight_at_update (m : RouteMap) (i j : nat) (g : Flight -> Flight)
    (i' j' : nat) :
  flight_at (update_flight m i j g) i' j' =
  if decide ((i', j') = (i, j)) then g <$> flight_at m i' j'
  else flight_at m i' j'.
Proof.
  unfold flight_at, route_at, update_flight.
  destruct (decide (i' = i)) as [->|Hi].
  - rewrite list_lookup_alter_eq. destruct (m !! i) as [[k r]|]; simpl.
    + destruct (decide (j' = j)) as [->|Hj].
      * rewrite decide_True by done. by rewrite list_lookup_alter_eq.
      * rewrite decide_False by congruence.
        by rewrite list_lookup_alter_ne.
    + by destruct (decide _).
  - rewrite decide_False by congruence.
    by rewrite list_lookup_alter_ne.
Qed.

Lemma route_at_update (m : RouteMap) (i j : nat) (g : Flight -> Flight)
    (i' : nat) :
  (route_id <$> route_at (update_flight m i j g) i' = route_id <$> route_at m i')
  /\ (departureDestination <$> route_at (update_flight m i j g) i'
      = departureDestination <$> route_at m i')
  /\ (arrivalDestination <$> route_at (update_flight m i j g) i'
      = arrivalDestination <$> route_at m i')
  /\ (fst <$> update_flight m i j g !! i' = fst <$> m !! i')
  /\ length (update_flight m i j g) = length m.
Proof.
  unfold route_at, update_flight.
  destruct (decide (i' = i)) as [->|Hi].
  - rewrite list_lookup_alter_eq, length_alter.
    by destruct (m !! i) as [[k r]|].
  - by rewrite list_lookup_alter_ne, length_alter.
Qed.

(** ** The scan of the booking handler *)

(** One route: either none of its flights match and the locals keep their
    values, or the locals end on the last match. *)
Lemma scan_itineraries_cases (id : string) (i : nat) (r : Route)
    (fs : list Flight) (st : Booked) :
  (Forall (fun f => flight_id f <> id) fs
   /\ fold_left (scan_flight id i r) (indexed fs) st = st)
  \/ (exists j f, fs !! j = Some f /\ flight_id f = id
        /\ (forall j' f', fs !! j' = Some f' -> flight_id f' = id ->
              (j' <= j)%nat)
        /\ fold_left (scan_flight id i r) (indexed fs) st = found i j r f).
Proof.
  induction fs as [|x fs IH] using rev_ind.
  - left. by split.
  - rewrite indexed_snoc, fold_left_app. simpl.
    set (st' := fold_left (scan_flight id i r) (indexed fs) st) in *.
    unfold scan_flight. simpl.
    destruct (String.eqb_spec (flight_id x) id) as [Hx|Hx].
    + right. exists (length fs), x. repeat split; trivial.
      * by rewrite lookup_app_r, Nat.sub_diag.
      * intros j' f' Hj' _. apply lookup_lt_Some in Hj'.
        rewrite length_app in Hj'. simpl in Hj'. lia.
    + destruct IH as [[Hall ->]|(j & f & Hj & Hf & Hmax & ->)].
      * left. split; [|done]. apply Forall_app. split; [done|].
        by constructor.
      * right. exists j, f. repeat split; trivial.
        -- by apply lookup_app_l_Some.
        -- intros j' f' Hj' Hf'.
           destruct (decide (j' < length fs)%nat) as [Hlt|Hge].
           ++ rewrite lookup_app_l in Hj' by done. by eapply Hmax.
           ++ rewrite lookup_app_r in Hj' by lia.
              destruct (j' - length fs)%nat; simpl in Hj'; [|done].
              by inversion Hj'; subst.
Qed.

(** All routes, in map order. *)
Lemma scan_routes_cases (id : string) (rs : list Route) :
  (Forall (fun r => Forall (fun f => flight_id f <> id) (itineraries r)) rs
   /\ fold_left (scan_route id) (indexed rs) nothing_booked = nothing_booked)
  \/ (exists i j r f,
        rs !! i = Some r /\ itineraries r !! j = Some f /\ flight_id f = id
        /\ (forall i' j' r' f', rs !! i' = Some r' ->
              itineraries r' !! j' = Some f' -> flight_id f' = id ->
              (i' < i)%nat \/ (i' = i /\ (j' <= j)%nat))
        /\ fold_left (scan_route id) (indexed rs) nothing_booked
           = found i j r f).
Proof.
  induction rs as [|x rs IH] using rev_ind.
  - left. by split.
  - rewrite indexed_snoc, fold_left_app. simpl.
    set (st' := fold_left (scan_route id) (indexed rs) nothing_booked) in *.
    unfold scan_route. simpl.
    destruct (scan_itineraries_cases id (length rs) x (itineraries x) st')
      as [[Hnone ->]|(j & f & Hj & Hf & Hmax & ->)].
    + destruct IH as [[Hall ->]|(i & j & r & f & Hi & Hj & Hf & Hmax & ->)].
      * left. split; [|done]. apply Forall_app. split; [done|].
        by constructor.
      * right. exists i, j, r, f. repeat split; trivial.
        -- by apply lookup_app_l_Some.
        -- intros i' j' r' f' Hi' Hj' Hf'.
           destruct (decide (i' < length rs)%nat) as [Hlt|Hge].
           ++ rewrite lookup_app_l in Hi' by done. by eapply Hmax.
           ++ rewrite lookup_app_r in Hi' by lia.
              destruct (i' - length rs)%nat; simpl in Hi'; [|done].
              inversion Hi'; subst r'.
              rewrite Forall_lookup in Hnone. by destruct (Hnone _ _ Hj').
    + right. exists (length rs), j, x, f. repeat split; trivial.
      * by rewrite lookup_app_r, Nat.sub_diag.
      * intros i' j' r' f' Hi' Hj' Hf'.
        destruct (decide (i' < length rs)%nat) as [Hlt|Hge]; [by left|].
        right. pose proof (lookup_lt_Some _ _ _ Hi') as Hlen.
        rewrite length_app in Hlen. simpl in Hlen.
        assert (i' = length rs) as -> by lia. split; [done|].
        rewrite lookup_app_r, Nat.sub_diag in Hi' by lia.
        inversion Hi'; subst r'. by eapply Hmax.
Qed.

Lemma scan_cases (m : RouteMap) (id : string) :
  (unknown_id m id /\ scan m id = nothing_booked)
  \/ (exists i j r f, last_with_id m id i j r f /\ scan m id = found i j r f).
Proof.
  unfold unknown_id, scan, last_with_id.
  destruct (scan_routes_cases id (Map_values m))
    as [[Hall ->]|(i & j & r & f & Hi & Hj & Hf & Hmax & ->)].
  - by left.
  - right. exists i, j, r, f. rewrite route_at_values.
    repeat split; trivial.
    intros i' j' f' (r' & Hr' & Hf')%flight_at_Some Hid.
    by eapply Hmax.
Qed.

Lemma last_with_id_known (m : RouteMap) (id : string) (i j : nat)
    (r : Route) (f : Flight) :
  last_with_id m id i j r f -> ~ unknown_id m id.
Proof.
  intros (Hr & Hf & Hid & _) Hun.
  apply (proj1 (Forall_flights _ m)) with (i := i) (j := j) (f := f) in Hun.
  - done.
  - unfold flight_at. by rewrite Hr.
Qed.

Lemma last_with_id_flight_at (m : RouteMap) (id : string) (i j : nat)
    (r : Route) (f : Flight) :
  last_with_id m id i j r f -> flight_at m i j = Some f.
Proof. intros (Hr & Hf & _). unfold flight_at. by rewrite Hr. Qed.

Lemma last_with_id_unique (m : RouteMap) (id : string)
    (i j i0 j0 : nat) (r r0 : Route) (f f0 : Flight) :
  last_with_id m id i j r f -> last_with_id m id i0 j0 r0 f0 ->
  i0 = i /\ j0 = j /\ r0 = r /\ f0 = f.
Proof.
  intros H H0.
  pose proof (last_with_id_flight_at _ _ _ _ _ _ H) as Hat.
  pose proof (last_with_id_flight_at _ _ _ _ _ _ H0) as Hat0.
  destruct H as (Hr & Hf & Hid & Hmax).
  destruct H0 as (Hr0 & Hf0 & Hid0 & Hmax0).
  specialize (Hmax _ _ _ Hat0 Hid0). specialize (Hmax0 _ _ _ Hat Hid).
  assert (i0 = i) as -> by lia. assert (j0 = j) as -> by lia.
  rewrite Hr in Hr0. inversion Hr0; subst r0.
  rewrite Hf in Hf0. by inversion Hf0.
Qed.

(** The scan ends on the last flight that carries the identifier. *)
Lemma scan_last (m : RouteMap) (id : string) (i j : nat)
    (r : Route) (f : Flight) :
  last_with_id m id i j r f -> scan m id = found i j r f.
Proof.
  intros H. destruct (scan_cases m id)
    as [[Hun _]|(i0 & j0 & r0 & f0 & H0 & ->)].
  - by destruct (last_with_id_known _ _ _ _ _ _ H).
  - by destruct (last_with_id_unique _ _ _ _ _ _ _ _ _ _ H H0)
      as (-> & -> & -> & ->).
Qed.

Lemma scan_unknown (m : RouteMap) (id : string) :
  unknown_id m id -> scan m id = nothing_booked.
Proof.
  intros H. destruct (scan_cases m id)
    as [[_ ->]|(i0 & j0 & r0 & f0 & H0 & _)]; [done|].
  by destruct (last_with_id_known _ _ _ _ _ _ H0).
Qed.

(** ** The booking handler, case by case *)

Lemma book_last (m : RouteMap) (name id : string) (n : Z) (i j : nat)
    (r : Route) (f : Flight) :
  last_with_id m id i j r f ->
  book m name id n =
  if availableSeats f <? n
  then (m, res_error 400 "Not enough seats available")
  else (update_flight m i j (take_seats n),
        res_json 200 (confirmation name id n r f)).
Proof. intros H. unfold book. by rewrite (scan_last _ _ _ _ _ _ H). Qed.

Lemma book_unknown (m : RouteMap) (name id : string) (n : Z) :
  unknown_id m id -> book m name id n = (m, res_error 404 "Flight not found").
Proof. intros H. unfold book. by rewrite (scan_unknown _ _ H). Qed.

Lemma flight_at_taken (m : RouteMap) (i j : nat) (n : Z) (f : Flight) :
  flight_at m i j = Some f ->
  flight_at (update_flight m i j (take_seats n)) i j = Some (take_seats n f).
Proof.
  intros H. rewrite flight_at_update, decide_True by done. by rewrite H.
Qed.

Lemma flight_at_untouched (m : RouteMap) (i j i' j' : nat) (n : Z) :
  (i', j') <> (i, j) ->
  flight_at (update_flight m i j (take_seats n)) i' j' = flight_at m i' j'.
Proof. intros H. by rewrite flight_at_update, decide_False. Qed.

(** ** Numbers *)

Lemma num_le_Some (a b : option Z) :
  num_le a b = true <-> exists x y, a = Some x /\ b = Some y /\ x <= y.
Proof.
  destruct a as [x|], b as [y|]; simpl; split;
    try discriminate; try (by intros (? & ? & [=] & _));
    try (by intros (? & ? & _ & [=] & _)).
  - intros H%Z.leb_le. by exists x, y.
  - intros (? & ? & [= <-] & [= <-] & H). by apply Z.leb_le.
Qed.

Lemma num_sub_Some (a b : option Z) (z : Z) :
  num_sub a b = Some z <-> exists x y, a = Some x /\ b = Some y /\ z = x - y.
Proof.
  destruct a as [x|], b as [y|]; simpl; split;
    try discriminate; try (by intros (? & ? & [=] & _));
    try (by intros (? & ? & _ & [=] & _)).
  - intros [= <-]. by exists x, y.
  - by intros (? & ? & [= <-] & [= <-] & ->).
Qed.

(** [x / d < c] on the quotient is [x < c * d] on the integers. *)
Lemma quot_lt_Some (a : option Z) (d c : Z) :
  0 < d ->
  quot_lt (num_div a d) c = true <-> exists x, a = Some x /\ x < c * d.
Proof.
  intros Hd. destruct a as [x|]; simpl.
  - rewrite negb_true_iff, <- not_true_iff_false, Qle_bool_iff.
    assert (Hq : (0 < inject_Z d)%Q).
    { change 0%Q with (inject_Z 0). by rewrite <- Zlt_Qlt. }
    split.
    + intros H. exists x. split; [done|].
      apply Z.nle_gt. intros Hle. apply H.
      apply Qle_shift_div_l; [done|].
      rewrite <- inject_Z_mult. by rewrite <- Zle_Qle.
    + intros (? & [= <-] & Hlt) Hle.
      apply Qle_lt_trans with (z := inject_Z c) in Hle.
      * by apply Qlt_irrefl in Hle.
      * apply Qlt_shift_div_r; [done|].
        rewrite <- inject_Z_mult. by rewrite <- Zlt_Qlt.
  - split; [done|]. by intros (? & [=] & _).
Qed.

Lemma truthy_Some (x : option string) :
  truthy x = true -> exists s, x = Some s.
Proof. destruct x as [s|]; [by exists s|done]. Qed.

Lemma strict_eq_true (s : string) (x : option string) :
  strict_eq s x = true <-> x = Some s.
Proof.
  destruct x as [s'|]; simpl; [|done].
  rewrite String.eqb_eq. split; [by intros ->|by intros [= ->]].
Qed.

Lemma TimeClip_Some (t t' : Z) :
  TimeClip t = Some t' -> t' = t /\ Z.abs t <= 8640000000000000.
Proof.
  unfold TimeClip. destruct (Z.leb_spec (Z.abs t) 8640000000000000);
    [by intros [= <-]|done].
Qed.

(** ** Pushing onto an array in nested loops *)

Lemma fold_left_push {A B : Type} (f : list B -> A -> list B)
    (g : A -> list B) :
  (forall acc x, f acc x = acc ++ g x) ->
  forall l acc, fold_left f l acc = acc ++ flat_map g l.
Proof.
  intros Hf l. induction l as [|x l IH]; intros acc; simpl.
  - by rewrite app_nil_r.
  - by rewrite IH, Hf, app_assoc.
Qed.

(** ** Sets of flight objects *)

Lemma Set_has_true (x : FlightRef) (s : FlightSet) :
  Set_has x s = true <-> x ∈ map fst s.
Proof.
  unfold Set_has. rewrite existsb_exists, list_elem_of_fmap. split.
  - intros (y & Hy%list_elem_of_In & Hxy%bool_decide_eq_true). by exists y.
  - intros (y & -> & Hy). exists y. split; [by apply list_elem_of_In|].
    by apply bool_decide_eq_true.
Qed.

Lemma Set_add_fresh (x : FlightRef * Flight) (s : FlightSet) :
  fst x ∉ map fst s -> Set_add x s = s ++ [x].
Proof.
  intros H. unfold Set_add.
  destruct (Set_has (fst x) s) eqn:E; [|done].
  by apply Set_has_true in E.
Qed.

Lemma Set_add_NoDup (x : FlightRef * Flight) (s : FlightSet) :
  NoDup (map fst s) -> NoDup (map fst (Set_add x s)).
Proof.
  intros H. unfold Set_add.
  destruct (Set_has (fst x) s) eqn:E; [done|].
  rewrite map_app. apply NoDup_app. repeat split; trivial.
  - intros y Hy [Heq|[]]%list_elem_of_In. simpl in Heq.
    rewrite <- Heq in Hy. apply Set_has_true in Hy. congruence.
  - apply NoDup_singleton.
Qed.

Section Searches.

Variable Date_parse : string -> option Z.
Variable Number_toString_frac : Q -> string.

(** ** The direct-flight search *)

Lemma Date_of_number_query (x : option string) :
  Date_of_number (Date_parse_query Date_parse x)
  = Date_getTime_query Date_parse x.
Proof. by destruct x. Qed.

Lemma hint_window (x : option string) (s : string) :
  negb (truthy x)
  || num_le (Math_abs (num_sub
               (Date_of_number (Date_parse_query Date_parse x))
               (Date_getTime Date_parse s)))
            (Some 86400000) = true
  <-> within_a_day Date_parse x s.
Proof.
  rewrite Date_of_number_query. unfold within_a_day.
  rewrite orb_true_iff, negb_true_iff, num_le_Some.
  destruct (truthy x); split.
  - intros [[=]|(a & y & Ha & [= <-] & Hle)] _.
    destruct (Date_getTime_query Date_parse x) as [th|]; [|done].
    destruct (Date_getTime Date_parse s) as [tf|]; [|done].
    simpl in Ha. inversion Ha; subst a. by exists th, tf.
  - intros H. right. destruct (H eq_refl) as (th & tf & -> & -> & Hle).
    by exists (Z.abs (th - tf)), 86400000.
  - done.
  - by left.
Qed.

Lemma in_window_spec (departureTime arrivalTime : option string)
    (f : Flight) :
  in_window Date_parse departureTime arrivalTime f = true
  <-> within_a_day Date_parse departureTime (departureAt f)
      /\ within_a_day Date_parse arrivalTime (arrivalAt f).
Proof.
  unfold in_window. by rewrite andb_true_iff, !hint_window.
Qed.

Lemma elem_of_direct_candidates (departureTime arrivalTime : option string)
    (ir : nat * Route) (i j : nat) (f : Flight) :
  ((i, j), f) ∈ direct_candidates Date_parse departureTime arrivalTime ir
  <-> i = fst ir /\ itineraries (snd ir) !! j = Some f
      /\ 0 < availableSeats f
      /\ within_a_day Date_parse departureTime (departureAt f)
      /\ within_a_day Date_parse arrivalTime (arrivalAt f).
Proof.
  unfold direct_candidates. rewrite list_elem_of_fmap. split.
  - intros ([j' f'] & [= -> -> ->] & H%list_elem_of_In).
    apply filter_In in H as [H%list_elem_of_In Hok]. simpl in *.
    apply elem_of_indexed in H.
    apply andb_true_iff in Hok as [Hs%Z.ltb_lt Hw%in_window_spec].
    tauto.
  - intros (-> & Hj & Hs & Hd & Ha). exists (j, f). split; [done|].
    apply list_elem_of_In, filter_In. split.
    + by apply list_elem_of_In, elem_of_indexed.
    + simpl. apply andb_true_iff. split; [by apply Z.ltb_lt|].
      by apply in_window_spec.
Qed.

(** Visiting the flights of a route whose objects are not in the set yet
    appends the flights that pass the test, in array order. *)
Lemma direct_route_fresh (departureTime arrivalTime : option string)
    (s : FlightSet) (ir : nat * Route) :
  (forall x, x ∈ s -> fst (fst x) <> fst ir) ->
  direct_route Date_parse departureTime arrivalTime s ir
  = s ++ direct_candidates Date_parse departureTime arrivalTime ir.
Proof.
  intros Hs. unfold direct_route, direct_candidates.
  induction (itineraries (snd ir)) as [|y fs IH] using rev_ind.
  - simpl. by rewrite app_nil_r.
  - rewrite indexed_snoc, fold_left_app, List.filter_app, List.map_app, IH.
    simpl. unfold direct_flight. simpl.
    destruct (0 <? availableSeats y); simpl;
      [destruct (in_window _ _ _ y); simpl|];
      rewrite ?app_nil_r; trivial.
    rewrite Set_add_fresh; [by rewrite app_assoc|].
    simpl. rewrite map_app, elem_of_app, !list_elem_of_fmap.
    intros [(x & Hx & Hin)|(x & Hx & (jf & -> & Hin)%list_elem_of_fmap)].
    + apply (Hs _ Hin). by rewrite <- Hx.
    + simpl in Hx. inversion Hx as [Hj].
      apply list_elem_of_In, filter_In in Hin as [Hin%list_elem_of_In _].
      destruct jf as [j f]. apply elem_of_indexed, lookup_lt_Some in Hin.
      simpl in Hj. lia.
Qed.

Lemma direct_fold_indexed (departureTime arrivalTime : option string)
    (p : nat * Route -> bool) (rs : list Route) :
  fold_left (direct_route Date_parse departureTime arrivalTime)
            (List.filter p (indexed rs)) []
  = flat_map (direct_candidates Date_parse departureTime arrivalTime)
             (List.filter p (indexed rs)).
Proof.
  induction rs as [|r rs IH] using rev_ind; [done|].
  rewrite indexed_snoc, List.filter_app, fold_left_app, flat_map_app, IH.
  simpl. destruct (p (length rs, r)); simpl; [|by rewrite app_nil_r].
  rewrite direct_route_fresh; [by rewrite app_nil_r|].
  intros [[i j] f] (ir & Hir & Hx)%list_elem_of_In%in_flat_map. simpl.
  apply filter_In in Hir as [Hir%list_elem_of_In _].
  apply list_elem_of_In, elem_of_direct_candidates in Hx as [-> _].
  destruct ir as [i r']. apply elem_of_indexed, lookup_lt_Some in Hir.
  simpl. lia.
Qed.

Lemma directFlightsSet_eq (m : RouteMap) (dep arr : string)
    (departureTime arrivalTime : option string) :
  directFlightsSet Date_parse m dep arr departureTime arrivalTime
  = flat_map (direct_candidates Date_parse departureTime arrivalTime)
             (directRoutes m dep arr).
Proof. apply direct_fold_indexed. Qed.

Lemma directFlightsSet_NoDup (m : RouteMap) (dep arr : string)
    (departureTime arrivalTime : option string) :
  NoDup (map fst (directFlightsSet Date_parse m dep arr
                                   departureTime arrivalTime)).
Proof.
  unfold directFlightsSet.
  assert (H : forall l s, NoDup (map fst s) ->
    NoDup (map fst (fold_left
      (direct_route Date_parse departureTime arrivalTime) l s))).
  { induction l as [|ir l IH]; intros s Hs; [done|]. simpl. apply IH.
    unfold direct_route. revert s Hs.
    induction (indexed (itineraries (snd ir))) as [|jf fs IHf];
      intros s Hs; [done|].
    simpl. apply IHf. unfold direct_flight.
    destruct (0 <? _); [destruct (in_window _ _ _ _)|]; trivial.
    by apply Set_add_NoDup. }
  apply H. constructor.
Qed.

Lemma elem_of_directFlightsSet (m : RouteMap) (dep arr : string)
    (departureTime arrivalTime : option string) (i j : nat) (f : Flight) :
  ((i, j), f) ∈ directFlightsSet Date_parse m dep arr
                                 departureTime arrivalTime
  <-> exists r, route_at m i = Some r /\ itineraries r !! j = Some f
        /\ direct_match Date_parse dep arr departureTime arrivalTime r f.
Proof.
  rewrite directFlightsSet_eq, list_elem_of_In, in_flat_map.
  unfold directRoutes, direct_match, is_direct. split.
  - intros ([i' r] & [Hir%list_elem_of_In Hp]%filter_In & Hx).
    apply list_elem_of_In, elem_of_direct_candidates in Hx.
    simpl in *. destruct Hx as (-> & Hj & Hrest).
    apply elem_of_indexed in Hir. rewrite <- route_at_values in Hir.
    apply andb_true_iff in Hp as [Hd%String.eqb_eq Ha%String.eqb_eq].
    exists r. tauto.
  - intros (r & Hr & Hj & Hd & Ha & Hrest). exists (i, r). split.
    + apply filter_In. split.
      * apply list_elem_of_In, elem_of_indexed. by rewrite <- route_at_values.
      * simpl. apply andb_true_iff. by rewrite !String.eqb_eq.
    + apply list_elem_of_In, elem_of_direct_candidates. simpl. tauto.
Qed.

(** ** The connecting-flight search *)

Lemma gap_Some (fd fa : Flight) (g : Z) :
  gap Date_parse fd fa = Some g
  <-> exists t1 t2, Date_getTime Date_parse (departureAt fa) = Some t1
        /\ Date_getTime Date_parse (arrivalAt fd) = Some t2 /\ g = t1 - t2.
Proof. apply num_sub_Some. Qed.

Lemma hint_bound (x : option string) (s : string) :
  negb (truthy x)
  || num_le (Date_getTime Date_parse s)
            (num_add (Date_getTime_query Date_parse x)
                     (Some (24 * 60 * 60 * 1000))) = true
  <-> (truthy x = true ->
       exists t th, Date_getTime Date_parse s = Some t
         /\ Date_getTime_query Date_parse x = Some th
         /\ t <= th + 24 * 3600000).
Proof.
  rewrite orb_true_iff, negb_true_iff, num_le_Some.
  destruct (truthy x); split.
  - intros [[=]|(t & y & Ht & Hy & Hle)] _.
    destruct (Date_getTime_query Date_parse x) as [th|]; [|done].
    simpl in Hy. inversion Hy; subst y. exists t, th.
    repeat split; trivial; lia.
  - intros H. right. destruct (H eq_refl) as (t & th & -> & -> & Hle).
    exists t, (th + 24 * 60 * 60 * 1000). repeat split; trivial; lia.
  - done.
  - by left.
Qed.

Lemma hint_exact (x : option string) (s : string) :
  negb (truthy x) || strict_eq s x = true
  <-> (truthy x = true -> x = Some s).
Proof.
  rewrite orb_true_iff, negb_true_iff, strict_eq_true.
  destruct (truthy x); split.
  - by intros [[=]|H] _.
  - intros H. right. by apply H.
  - done.
  - by left.
Qed.

Lemma connects_spec (departureTime arrivalTime : option string)
    (d a : Route) (fd fa : Flight) :
  connects Date_parse departureTime arrivalTime d a fd fa = true
  <-> valid_connection Date_parse departureTime arrivalTime d a fd fa.
Proof.
  unfold connects, valid_connection.
  rewrite !andb_true_iff, String.eqb_eq, hint_bound, hint_exact.
  rewrite quot_lt_Some by lia.
  assert (Hg : (exists x, gap Date_parse fd fa = Some x
                          /\ x < 24 * (1000 * 60 * 60))
               <-> exists t1 t2,
                     Date_getTime Date_parse (departureAt fa) = Some t1
                     /\ Date_getTime Date_parse (arrivalAt fd) = Some t2
                     /\ t1 - t2 < 24 * 3600000).
  { split.
    - intros (g & (t1 & t2 & H1 & H2 & ->)%gap_Some & Hlt).
      exists t1, t2. repeat split; trivial; lia.
    - intros (t1 & t2 & H1 & H2 & Hlt). exists (t1 - t2). split; [|lia].
      apply gap_Some. by exists t1, t2. }
  rewrite Hg. tauto.
Qed.

(** The four nested loops push the entries in the order of the loops. *)
Lemma connectingFlights_nested (m : RouteMap) (dep arr : string)
    (departureTime arrivalTime : option string) :
  connectingFlights Date_parse Number_toString_frac m dep arr
                    departureTime arrivalTime
  = nested_connections Date_parse Number_toString_frac m dep arr
                       departureTime arrivalTime.
Proof.
  unfold connectingFlights, nested_connections.
  erewrite fold_left_push; [reflexivity|]. intros acc d. simpl.
  erewrite fold_left_push; [reflexivity|]. intros acc' a. simpl.
  erewrite fold_left_push; [reflexivity|]. intros acc'' fd. simpl.
  erewrite fold_left_push; [reflexivity|]. intros acc''' fa. simpl.
  unfold push_connection, connection_entry.
  destruct (connects _ _ _ _ _ _ _); [done|by rewrite app_nil_r].
Qed.

Lemma elem_of_routes_from (m : RouteMap) (dep : string) (d : Route) :
  In d (departingRoutes m dep)
  <-> d ∈ Map_values m /\ departureDestination d = dep.
Proof.
  unfold departingRoutes.
  by rewrite filter_In, String.eqb_eq, list_elem_of_In.
Qed.

Lemma elem_of_routes_to (m : RouteMap) (arr : string) (a : Route) :
  In a (arrivingRoutes m arr)
  <-> a ∈ Map_values m /\ arrivalDestination a = arr.
Proof.
  unfold arrivingRoutes.
  by rewrite filter_In, String.eqb_eq, list_elem_of_In.
Qed.

Lemma elem_of_connectingFlights (m : RouteMap) (dep arr : string)
    (departureTime arrivalTime : option string) (c : Connection) :
  c ∈ connectingFlights Date_parse Number_toString_frac m dep arr
                        departureTime arrivalTime
  <-> exists d a fd fa,
        d ∈ Map_values m /\ a ∈ Map_values m
        /\ fd ∈ itineraries d /\ fa ∈ itineraries a
        /\ departureDestination d = dep /\ arrivalDestination a = arr
        /\ valid_connection Date_parse departureTime arrivalTime d a fd fa
        /\ c = connection_entry Date_parse Number_toString_frac d fd fa.
Proof.
  rewrite connectingFlights_nested, list_elem_of_In.
  unfold nested_connections. split.
  - intros (d & [Hd Hdep]%elem_of_routes_from & H)%in_flat_map.
    apply in_flat_map in H as (a & [Ha Harr]%elem_of_routes_to & H).
    apply in_flat_map in H as (fd & Hfd%list_elem_of_In & H).
    apply in_flat_map in H as (fa & Hfa%list_elem_of_In & H).
    destruct (connects _ _ _ _ _ _ _) eqn:E; [|done].
    destruct H as [<-|[]]. apply connects_spec in E.
    by exists d, a, fd, fa.
  - intros (d & a & fd & fa & Hd & Ha & Hfd & Hfa & Hdep & Harr & Hv & ->).
    apply in_flat_map. exists d. split; [by apply elem_of_routes_from|].
    apply in_flat_map. exists a. split; [by apply elem_of_routes_to|].
    apply in_flat_map. exists fd. split; [by apply list_elem_of_In|].
    apply in_flat_map. exists fa. split; [by apply list_elem_of_In|].
    apply connects_spec in Hv. rewrite Hv. by left.
Qed.

(** ** The layover string *)

Lemma Qred_inject_Z (z : Z) : Qred (inject_Z z) = inject_Z z.
Proof.
  unfold Qred, inject_Z.
  pose proof (Z.ggcd_gcd z 1) as Hg.
  pose proof (Z.ggcd_correct_divisors z 1) as Hd.
  destruct (Z.ggcd z 1) as [g [x y]]. simpl in *.
  rewrite Z.gcd_1_r in Hg. subst g. destruct Hd as [Hx Hy].
  assert (x = z) as -> by lia. assert (y = 1) as -> by lia. done.
Qed.

Lemma Number_toString_whole (n d : Z) :
  0 < d -> Z.abs n <= 9007199254740992 ->
  Number_toString Number_toString_frac
    (Qdiv (inject_Z (d * n)) (inject_Z d)) = pretty n.
Proof.
  intros Hd Hn. unfold Number_toString.
  assert (Hq : Qred (Qdiv (inject_Z (d * n)) (inject_Z d)) = inject_Z n).
  { rewrite <- (Qred_inject_Z n). apply Qred_complete.
    rewrite inject_Z_mult, Qmult_comm. apply Qdiv_mult_l.
    change 0%Q with (inject_Z 0). rewrite inject_Z_injective. lia. }
  rewrite Hq. simpl.
  destruct (Z.leb_spec (Z.abs n) 9007199254740992); [done|lia].
Qed.

Lemma layover_minutes (fd fa : Flight) (t1 t2 : Z) :
  Date_getTime Date_parse (departureAt fa) = Some t1 ->
  Date_getTime Date_parse (arrivalAt fd) = Some t2 ->
  layover Date_parse Number_toString_frac fd fa
  = Number_toString Number_toString_frac
      (Qdiv (inject_Z (t1 - t2)) (inject_Z 60000)) +:+ " minutes"
  /\ forall n, t1 - t2 = 60000 * n ->
       layover Date_parse Number_toString_frac fd fa
       = pretty n +:+ " minutes".
Proof.
  intros H1 H2. unfold layover, gap. rewrite H1, H2. simpl.
  split; [done|]. intros n Hn. rewrite Hn.
  rewrite Number_toString_whole; [done|lia|].
  unfold Date_getTime in H1, H2.
  destruct (Date_parse (departureAt fa)) as [x1|]; [|done].
  destruct (Date_parse (arrivalAt fd)) as [x2|]; [|done].
  simpl in H1, H2. apply TimeClip_Some in H1 as [-> B1].
  apply TimeClip_Some in H2 as [-> B2]. lia.
Qed.

End Searches.

(** ** Booking keeps seat counts non-negative *)


Lemma sample_last_F4 : last_with_id sample "F4" 2 0 routeC F4.
Proof.
  repeat split; try reflexivity.
  intros i' j' f' Hat Hid. by_position i' j' Hat Hid.
Defined.


(** ** The claims *)



(** C2.  When [n] is strictly greater than the seat count of the flight
    located by the identifier, booking answers 400 with the error
    "Not enough seats available", and the map, that flight included, is
    unchanged. *)
Theorem book_not_enough_seats (m : RouteMap) (name id : string) (n : Z)
    (i j : nat) (r : Route) (f : Flight) :
  last_with_id m id i j r f ->
  availableSeats f < n ->
  book m name id n = (m, res_error 400 "Not enough seats available")
  /\ flight_at (fst (book m name id n)) i j = Some f.
Proof.
  intros Hlast Hlt. rewrite (book_last _ _ _ _ _ _ _ _ Hlast).
  destruct (Z.ltb_spec (availableSeats f) n) as [_|Hge]; [|lia].
  split; [done|]. by apply (last_with_id_flight_at _ id _ _ r).
Qed.

Lemma book_not_enough_seats_witness :
  last_with_id sample "F4" 2 0 routeC F4
  /\ availableSeats F4 < 10
  /\ book sample "Ann" "F4" 10
     = (sample, res_error 400 "Not enough seats available")
  /\ flight_at (fst (book sample "Ann" "F4" 10)) 2 0 = Some F4.
Proof.
  split; [exact sample_last_F4|]. split; [simpl; lia|].
  apply (book_not_enough_seats sample "Ann" "F4" 10 2 0 routeC F4).
  - exact sample_last_F4.
  - simpl; lia.
Defined.



(** C6.  When no flight of any route carries the identifier, booking
    answers 404 with the error "Flight not found" and the map is
    unchanged; this is decided before the seat count is looked at, so the
    answer is never the 400 of a lack of seats, whatever [n] is. *)
Theorem book_unknown_flight (m : RouteMap) (name id : string) (n : Z) :
  unknown_id m id ->
  book m name id n = (m, res_error 404 "Flight not found")
  /\ snd (book m name id n) <> res_error 400 "Not enough seats available".
Proof.
  intros Hun. rewrite book_unknown by done. by split.
Qed.

Lemma book_unknown_flight_witness :
  unknown_id sample "F9"
  /\ book sample "Di" "F9" 1000 = (sample, res_error 404 "Flight not found")
  /\ snd (book sample "Di" "F9" 1000)
     <> res_error 400 "Not enough seats available".
Proof.
  assert (H : unknown_id sample "F9").
  { unfold unknown_id. simpl. repeat constructor; simpl; discriminate. }
  split; [exact H|].
  exact (book_unknown_flight sample "Di" "F9" 1000 H).
Defined.






(** C4.  An entry for the flights [fd] of route [d] and [fa] of route [a]
    is in the connecting-flight result if and only if [d] departs from the
    requested departure location, [a] arrives at the requested arrival
    location, [d] arrives where [a] departs, [arrivalAt fd] is at most
    [departureAt fa] as a string, the time from the arrival of [fd] to the
    departure of [fa] is strictly less than 24 hours, the departure of [fd]
    is at most 24 hours after the departure-time hint when that hint is
    given (a non-empty string), and [arrivalAt fa] is the arrival-time hint
    when that hint is given.  The condition does not read the seat counts,
    and a pair with a flight that has no seat left is included. *)
Theorem connection_included_iff
    (Date_parse : string -> option Z) (Number_toString_frac : Q -> string)
    (m : RouteMap) (dep arr : string)
    (departureTime arrivalTime : option string) :
  (forall c,
     c ∈ connectingFlights Date_parse Number_toString_frac m dep arr
                           departureTime arrivalTime
     <-> exists d a fd fa,
           d ∈ Map_values m /\ a ∈ Map_values m
           /\ fd ∈ itineraries d /\ fa ∈ itineraries a
           /\ departureDestination d = dep /\ arrivalDestination a = arr
           /\ valid_connection Date_parse departureTime arrivalTime d a fd fa
           /\ c = connection_entry Date_parse Number_toString_frac d fd fa)
  /\ (forall d a fd fa k l,
        valid_connection Date_parse departureTime arrivalTime d a
                         (set_availableSeats fd k) (set_availableSeats fa l)
        <-> valid_connection Date_parse departureTime arrivalTime d a fd fa)
  /\ (availableSeats F2 = 0
      /\ connection_entry iso_parse no_fraction routeA F1 F2
         ∈ connectingFlights iso_parse no_fraction two_legs "X" "Z"
                             None None).
Proof.
  split; [|split].
  - intros c. apply elem_of_connectingFlights.
  - intros d a fd fa k l. unfold valid_connection. simpl. tauto.
  - split; [reflexivity|]. vm_compute. by left.
Qed.

(** C5.  The direct-flight query keeps exactly the flight objects that lie
    on a route whose departure and arrival locations are the requested
    strings, that have at least one seat, and whose departure (resp.
    arrival) time is at most 86,400,000 ms away from the departure-time
    (resp. arrival-time) hint when that hint is given, a distance of
    exactly 86,400,000 ms included; each such object is kept once, and
    without hints every flight with a seat on a matching route is kept.
    [F4] departs exactly 24 hours before the first hint of the example and
    is found; it is not found with a hint one millisecond later. *)
Theorem direct_flights_exact
    (Date_parse : string -> option Z)
    (m : RouteMap) (dep arr : string)
    (departureTime arrivalTime : option string) :
  (forall i j f,
     ((i, j), f) ∈ directFlightsSet Date_parse m dep arr
                                    departureTime arrivalTime
     <-> exists r, route_at m i = Some r /\ itineraries r !! j = Some f
           /\ departureDestination r = dep /\ arrivalDestination r = arr
           /\ 0 < availableSeats f
           /\ (truthy departureTime = true ->
               exists th tf,
                 Date_getTime_query Date_parse departureTime = Some th
                 /\ Date_getTime Date_parse (departureAt f) = Some tf
                 /\ Z.abs (th - tf) <= 86400000)
           /\ (truthy arrivalTime = true ->
               exists th tf,
                 Date_getTime_query Date_parse arrivalTime = Some th
                 /\ Date_getTime Date_parse (arrivalAt f) = Some tf
                 /\ Z.abs (th - tf) <= 86400000))
  /\ NoDup (map fst (directFlightsSet Date_parse m dep arr
                                      departureTime arrivalTime))
  /\ directFlights Date_parse m dep arr departureTime arrivalTime
     = map snd (directFlightsSet Date_parse m dep arr
                                 departureTime arrivalTime)
  /\ (forall i j f,
        ((i, j), f) ∈ directFlightsSet Date_parse m dep arr None None
        <-> exists r, route_at m i = Some r /\ itineraries r !! j = Some f
              /\ departureDestination r = dep /\ arrivalDestination r = arr
              /\ 0 < availableSeats f)
  /\ (direct_flights iso_parse sample "X" "Z"
                     (Some "2023-03-30T09:00:00.000Z") None
      = res_json 200 [F4]
      /\ direct_flights iso_parse sample "X" "Z"
                        (Some "2023-03-30T09:00:00.001Z") None
         = res_error 404 "No direct flights available").
Proof.
  split; [|split; [|split; [|split]]]; [| | | |by vm_compute].
  - intros i j f. apply elem_of_directFlightsSet.
  - apply directFlightsSet_NoDup.
  - reflexivity.
  - intros i j f. rewrite elem_of_directFlightsSet.
    unfold direct_match, within_a_day. simpl. split.
    + intros (r & Hr & Hj & Hd & Ha & Hs & _). by exists r.
    + intros (r & Hr & Hj & Hd & Ha & Hs). exists r.
      repeat split; trivial; discriminate.
Qed.

(** C7.  The entries of the connecting-flight result stand in the order of
    the four nested loops (departing routes, arriving routes, flights of
    the departing route, flights of the arriving route).  The route
    description of an entry has a first leg from the departure to the
    arrival location of the departing route and a second leg from the
    arrival location of the departing route to the arrival location of the
    request.  The layover of an entry is the string of the time from the
    arrival of the first flight to the departure of the second, in minutes,
    followed by " minutes"; when that time is a whole number [n] of
    minutes the string is the decimal numeral of [n].  A flight that
    arrives at 10:00 and one that departs at 11:00 give "60 minutes". *)
Theorem connection_entries
    (Date_parse : string -> option Z) (Number_toString_frac : Q -> string)
    (m : RouteMap) (dep arr : string)
    (departureTime arrivalTime : option string) :
  connectingFlights Date_parse Number_toString_frac m dep arr
                    departureTime arrivalTime
  = nested_connections Date_parse Number_toString_frac m dep arr
                       departureTime arrivalTime
  /\ connection_flights Date_parse Number_toString_frac m dep arr
                        departureTime arrivalTime
     = res_json 200
         (map (fun c =>
                 {| out_departureFlight := departureFlight c;
                    out_arrivalFlight := arrivalFlight c;
                    out_layoverTime := layoverTime c;
                    out_route :=
                      {| departureRoute :=
                           mkLeg (departureDestination (route c))
                                 (arrivalDestination (route c));
                         arrivalRoute :=
                           mkLeg (arrivalDestination (route c)) arr |} |})
              (connectingFlights Date_parse Number_toString_frac m dep arr
                                 departureTime arrivalTime))
  /\ (forall c,
        c ∈ connectingFlights Date_parse Number_toString_frac m dep arr
                              departureTime arrivalTime ->
        exists t1 t2,
          Date_getTime Date_parse (departureAt (arrivalFlight c)) = Some t1
          /\ Date_getTime Date_parse (arrivalAt (departureFlight c)) = Some t2
          /\ layoverTime c
             = Number_toString Number_toString_frac
                 (Qdiv (inject_Z (t1 - t2)) (inject_Z 60000)) +:+ " minutes"
          /\ forall n, t1 - t2 = 60000 * n ->
               layoverTime c = pretty n +:+ " minutes")
  /\ connection_flights iso_parse no_fraction two_legs "X" "Z" None None
     = res_json 200
         [ {| out_departureFlight := F1;
              out_arrivalFlight := F2;
              out_layoverTime := "60 minutes";
              out_route := {| departureRoute := mkLeg "X" "Y";
                              arrivalRoute := mkLeg "Y" "Z" |} |} ].
Proof.
  split; [|split; [|split]].
  - apply connectingFlights_nested.
  - reflexivity.
  - intros c Hc. apply elem_of_connectingFlights in Hc
      as (d & a & fd & fa & _ & _ & _ & _ & _ & _ & Hv & ->).
    destruct Hv as (_ & _ & (t1 & t2 & H1 & H2 & _) & _).
    exists t1, t2. simpl. repeat split; trivial;
      by apply layover_minutes.
  - vm_compute. reflexivity.
Qed.

(** C8.  A direct-flight query that finds nothing answers 404 with an
    error body and one that finds flights answers 200 with them, while a
    connecting-flight query always answers 200, with the empty array when
    it finds nothing. *)
Theorem empty_results
    (Date_parse : string -> option Z) (Number_toString_frac : Q -> string)
    (m : RouteMap) (dep arr : string)
    (departureTime arrivalTime : option string) :
  direct_flights Date_parse m dep arr departureTime arrivalTime
  = match directFlights Date_parse m dep arr departureTime arrivalTime with
    | [] => res_error 404 "No direct flights available"
    | found => res_json 200 found
    end
  /\ connection_flights Date_parse Number_toString_frac m dep arr
                        departureTime arrivalTime
     = res_json 200
         (map (format arr)
              (connectingFlights Date_parse Number_toString_frac m dep arr
                                 departureTime arrivalTime))
  /\ (connectingFlights Date_parse Number_toString_frac m dep arr
                         departureTime arrivalTime = [] ->
      connection_flights Date_parse Number_toString_frac m dep arr
                         departureTime arrivalTime
      = res_json 200 [])
  /\ (direct_flights iso_parse sample "Y" "X" None None
      = res_error 404 "No direct flights available"
      /\ connection_flights iso_parse no_fraction sample "Y" "X" None None
         = res_json 200 []
      /\ direct_flights iso_parse sample "X" "Z" None None
         = res_json 200 [F4]).
Proof.
  split; [|split; [|split]].
  - unfold direct_flights. by destruct (directFlights _ _ _ _ _ _).
  - reflexivity.
  - unfold connection_flights. by intros ->.
  - by vm_compute.
Qed.

(** ** Loading the data set, [GET /routes] and [GET /routes/:route_id] *)

Lemma Map_get_set_eq (k : string) (v : Route) (m : RouteMap) :
  Map_get k (Map_set k v m) = Some v.
Proof.
  induction m as [|[k' v'] m IH]; simpl.
  - by rewrite String.eqb_refl.
  - destruct (String.eqb_spec k' k) as [->|Hne]; simpl.
    + by rewrite String.eqb_refl.
    + by destruct (String.eqb_spec k' k).
Qed.

Lemma Map_get_set_ne (k k0 : string) (v : Route) (m : RouteMap) :
  k0 <> k -> Map_get k0 (Map_set k v m) = Map_get k0 m.
Proof.
  intros Hne. induction m as [|[k' v'] m IH]; simpl.
  - by destruct (String.eqb_spec k k0) as [->|_].
  - destruct (String.eqb_spec k' k) as [->|Hk]; simpl.
    + by destruct (String.eqb_spec k k0) as [->|_].
    + by destruct (String.eqb_spec k' k0).
Qed.

Lemma Map_set_keys (k : string) (v : Route) (m : RouteMap) :
  map fst (Map_set k v m)
  = if decide (k ∈ map fst m) then map fst m else map fst m ++ [k].
Proof.
  induction m as [|[k' v'] m IH].
  - simpl. destruct (decide (k ∈ [])) as [Hin|_]; [|done].
    by apply elem_of_nil in Hin.
  - cbn [Map_set map fst].
    destruct (String.eqb_spec k' k) as [->|Hk]; cbn [map fst].
    + destruct (decide (k ∈ k :: map fst m)) as [_|Hout]; [done|].
      destruct Hout. by left.
    + rewrite IH. destruct (decide (k ∈ map fst m)) as [Hin|Hout];
        destruct (decide (k ∈ k' :: map fst m)) as [Hin'|Hout']; trivial.
      * destruct Hout'. by right.
      * apply elem_of_cons in Hin' as [?|?]; congruence.
Qed.

Lemma Map_set_fresh (k : string) (v : Route) (m : RouteMap) :
  k ∉ map fst m -> Map_set k v m = m ++ [(k, v)].
Proof.
  induction m as [|[k' v'] m IH]; simpl; intros Hk; [done|].
  destruct (String.eqb_spec k' k) as [->|Hne].
  - destruct Hk. by left.
  - rewrite IH; [done|]. intros Hin. apply Hk. by right.
Qed.

Lemma load_snoc (data : list Route) (r : Route) :
  load (data ++ [r]) = Map_set (route_id r) r (load data).
Proof. unfold load. by rewrite fold_left_app. Qed.

(** The keys of the map are distinct and each is the identifier of its
    route. *)
Lemma load_keys (data : list Route) :
  NoDup (map fst (load data))
  /\ Forall (fun kv => fst kv = route_id (snd kv)) (load data).
Proof.
  induction data as [|r data [IHn IHk]] using rev_ind.
  - split; constructor.
  - rewrite load_snoc. split.
    + rewrite Map_set_keys. destruct (decide _) as [Hin|Hout]; [done|].
      apply NoDup_app. repeat split; trivial.
      * intros k Hk [Heq|[]]%list_elem_of_In. by rewrite <- Heq in Hk.
      * apply NoDup_singleton.
    + clear IHn. induction (load data) as [|[k' v'] m IHm]; simpl.
      * by repeat constructor.
      * inversion IHk; subst.
        destruct (String.eqb_spec k' (route_id r)); constructor; auto.
Qed.

Lemma Map_get_Some_elem (k : string) (r : Route) (m : RouteMap) :
  Map_get k m = Some r -> (k, r) ∈ m.
Proof.
  induction m as [|[k' v'] m IH]; simpl; [done|].
  destruct (String.eqb_spec k' k) as [->|Hne].
  - intros [= ->]. by left.
  - intros H. right. by apply IH.
Qed.

Lemma Map_get_elem (k : string) (r : Route) (m : RouteMap) :
  NoDup (map fst m) -> (k, r) ∈ m -> Map_get k m = Some r.
Proof.
  induction m as [|[k' v'] m IH]; simpl; intros Hn Hin.
  - by apply elem_of_nil in Hin.
  - apply NoDup_cons in Hn as [Hk' Hn].
    apply elem_of_cons in Hin as [[= <- <-]|Hin].
    + by rewrite String.eqb_refl.
    + destruct (String.eqb_spec k' k) as [->|Hne]; [|by apply IH].
      destruct Hk'. apply list_elem_of_fmap. by exists (k, r).
Qed.

Lemma Map_get_load (data : list Route) (id : string) (r : Route) :
  Map_get id (load data) = Some r <-> last_route data r /\ route_id r = id.
Proof.
  split.
  - induction data as [|x data IH] using rev_ind; [done|].
    rewrite load_snoc.
    destruct (decide (id = route_id x)) as [->|Hne].
    + rewrite Map_get_set_eq. intros [= <-]. split; [|done].
      exists data, []. by split.
    + rewrite Map_get_set_ne by done.
      intros [(l1 & l2 & -> & Hl2) <-]%IH. split; [|done].
      exists l1, (l2 ++ [x]). split; [by rewrite <- app_assoc|].
      apply Forall_app. split; [done|]. constructor; [congruence|done].
  - intros [(l1 & l2 & -> & Hl2) <-].
    induction l2 as [|x l2 IH] using rev_ind.
    + by rewrite load_snoc, Map_get_set_eq.
    + apply Forall_app in Hl2 as [Hl2 Hx]. inversion Hx; subst.
      change (l1 ++ r :: l2 ++ [x]) with (l1 ++ (r :: l2) ++ [x]).
      rewrite app_assoc, load_snoc, Map_get_set_ne by congruence.
      by apply IH.
Qed.

Lemma load_distinct (data : list Route) :
  NoDup (map route_id data) -> load data = map entry_of data.
Proof.
  induction data as [|r data IH] using rev_ind; [done|].
  rewrite map_app, NoDup_app. intros (Hn & Hr & _).
  rewrite load_snoc, IH by done. rewrite map_app. simpl.
  apply Map_set_fresh. rewrite map_map. simpl.
  intros Hin. apply (Hr _ Hin). by left.
Qed.

(** X1.  [GET /routes/:route_id] answers 200 with a route exactly when
    that route is the last one of the data set with the requested
    identifier: of two routes with one identifier the later one stays. *)
Theorem get_route_last_wins (data : list Route) (id : string) (r : Route) :
  get_route (load data) id = res_json 200 r
  <-> last_route data r /\ route_id r = id.
Proof.
  rewrite <- Map_get_load. unfold get_route.
  destruct (Map_get id (load data)) as [r'|]; split;
    try done; by intros [= ->].
Qed.

(** X2.  [GET /routes/:route_id] answers 404 "Route not found" exactly
    when no route of the data set has the requested identifier. *)
Theorem get_route_not_found (data : list Route) (id : string) :
  get_route (load data) id = res_error 404 "Route not found"
  <-> Forall (fun r => route_id r <> id) data.
Proof.
  unfold get_route. split.
  - destruct (Map_get id (load data)) as [r|] eqn:E; [done|]. intros _.
    apply Forall_forall. intros r Hr Hid.
    apply list_elem_of_split in Hr as (l1 & l2 & ->).
    assert (H : exists r', Map_get id (load (l1 ++ r :: l2)) = Some r').
    { clear E. induction l2 as [|x l2 IH] using rev_ind.
      - exists r. rewrite load_snoc, <- Hid. apply Map_get_set_eq.
      - change (l1 ++ r :: l2 ++ [x]) with (l1 ++ (r :: l2) ++ [x]).
        rewrite app_assoc, load_snoc.
        destruct (decide (id = route_id x)) as [->|Hne].
        + exists x. apply Map_get_set_eq.
        + by rewrite Map_get_set_ne. }
    destruct H as [r' Hr']. congruence.
  - intros Hall. destruct (Map_get id (load data)) as [r|] eqn:E; [|done].
    apply Map_get_load in E as [(l1 & l2 & -> & _) Hid].
    apply Forall_app in Hall as [_ Hall]. by inversion Hall.
Qed.

(** X3.  [GET /routes] lists no identifier twice, and lists a route exactly
    when it is the last one of the data set with its identifier. *)
Theorem get_routes_last_of_each (data : list Route) :
  exists rs,
    get_routes (load data) = res_json 200 rs
    /\ NoDup (map route_id rs)
    /\ forall r, r ∈ rs <-> last_route data r.
Proof.
  exists (Map_values (load data)). split; [done|].
  destruct (load_keys data) as [Hn Hk]. split.
  - unfold Map_values. rewrite map_map.
    replace (map (fun x => route_id (snd x)) (load data))
      with (map fst (load data)); [done|].
    apply map_ext_Forall. eapply Forall_impl; [exact Hk|]. auto.
  - intros r. unfold Map_values. rewrite list_elem_of_fmap. split.
    + intros ([k r'] & -> & Hin). simpl.
      assert (k = route_id r') as ->.
      { rewrite Forall_forall in Hk. by apply (Hk (k, r')). }
      apply (Map_get_elem _ _ _ Hn) in Hin.
      by apply Map_get_load in Hin as [? _].
    + intros Hr. exists (route_id r, r). split; [done|].
      apply Map_get_Some_elem, Map_get_load. by split.
Qed.

(** X4.  When the identifiers of the data set are distinct, [GET /routes]
    answers with the data set itself, in its order. *)
Theorem get_routes_distinct (data : list Route) :
  NoDup (map route_id data) ->
  get_routes (load data) = res_json 200 data.
Proof.
  intros Hn. unfold get_routes, Map_values.
  rewrite load_distinct by done. rewrite map_map. simpl.
  by rewrite map_id.
Qed.

Lemma get_routes_distinct_witness :
  NoDup (map route_id [routeA; routeB; routeC])
  /\ get_routes (load [routeA; routeB; routeC])
     = res_json 200 [routeA; routeB; routeC].
Proof.
  assert (H : NoDup (map route_id [routeA; routeB; routeC])).
  { apply (bool_decide_unpack _). by vm_compute. }
  split; [exact H|]. exact (get_routes_distinct _ H).
Defined.

(** ** What a booking leaves as it is *)

Lemma forget_taken (n : Z) (f : Flight) :
  forget_seats (take_seats n f) = forget_seats f.
Proof. done. Qed.

Lemma update_flight_forget (m : RouteMap) (i j : nat) (n : Z) :
  map fst (update_flight m i j (take_seats n)) = map fst m
  /\ map forget_route_seats (Map_values (update_flight m i j (take_seats n)))
     = map forget_route_seats (Map_values m).
Proof.
  unfold update_flight, Map_values. split.
  - change (map fst) with (fmap (M := list) (@fst string Route)).
    rewrite (list_fmap_alter _ _ id); [by apply list_alter_id|].
    by apply Forall_forall.
  - rewrite !map_map.
    change (map (fun x => forget_route_seats (snd x)))
      with (fmap (M := list)
                 (fun x : string * Route => forget_route_seats (snd x))).
    rewrite (list_fmap_alter _ _ id); [by apply list_alter_id|].
    apply Forall_forall. intros [k r] _. simpl.
    unfold forget_route_seats, set_itineraries. simpl. f_equal.
    change (map forget_seats) with (fmap (M := list) forget_seats).
    rewrite (list_fmap_alter _ _ id); [by apply list_alter_id|].
    by apply Forall_forall.
Qed.

(** The map after a booking is the map before it, or differs from it in
    the seat count of one flight. *)
Lemma book_map_cases (m : RouteMap) (name id : string) (n : Z) :
  fst (book m name id n) = m
  \/ exists i j, fst (book m name id n) = update_flight m i j (take_seats n).
Proof.
  unfold book.
  destruct (bookedFlight (scan m id)) as [[[i j] bf]|]; [|by left].
  destruct (bookedRoute (scan m id)) as [[i' br]|]; [|by left].
  destruct (availableSeats bf <? n); [by left|].
  right. by exists i, j.
Qed.

Lemma book_forget (m : RouteMap) (name id : string) (n : Z) :
  map fst (fst (book m name id n)) = map fst m
  /\ map forget_route_seats (Map_values (fst (book m name id n)))
     = map forget_route_seats (Map_values m).
Proof.
  destruct (book_map_cases m name id n) as [->|(i & j & ->)]; [done|].
  apply update_flight_forget.
Qed.

Lemma Map_get_forget (m1 m2 : RouteMap) (k : string) :
  map fst m1 = map fst m2 ->
  map forget_route_seats (Map_values m1)
  = map forget_route_seats (Map_values m2) ->
  forget_route_seats <$> Map_get k m1 = forget_route_seats <$> Map_get k m2.
Proof.
  revert m2. induction m1 as [|[k1 r1] m1 IH]; intros [|[k2 r2] m2];
    try done.
  unfold Map_values. cbn [map fst snd Map_get]. intros [= -> Hk] Hv.
  remember (forget_route_seats r1) as x1 eqn:E1.
  remember (forget_route_seats r2) as x2 eqn:E2.
  injection Hv as Hr Hv. subst x1 x2.
  destruct (String.eqb_spec k2 k); simpl; [by rewrite Hr|by apply IH].
Qed.

Lemma forget_flight_at (m1 m2 : RouteMap) :
  map forget_route_seats (Map_values m1)
  = map forget_route_seats (Map_values m2) ->
  forall i,
    forget_route_seats <$> route_at m1 i = forget_route_seats <$> route_at m2 i
    /\ forall j, forget_seats <$> flight_at m1 i j
                 = forget_seats <$> flight_at m2 i j.
Proof.
  intros H i.
  assert (Hr : forget_route_seats <$> route_at m1 i
               = forget_route_seats <$> route_at m2 i).
  { rewrite !route_at_values, <- !list_lookup_fmap.
    change (fmap (M := list) forget_route_seats) with (map forget_route_seats).
    by rewrite H. }
  split; [done|]. intros j. unfold flight_at.
  destruct (route_at m1 i) as [r1|], (route_at m2 i) as [r2|];
    simpl in *; try done.
  apply (inj Some), (f_equal itineraries) in Hr. simpl in Hr.
  rewrite <- !list_lookup_fmap.
  change (fmap (M := list) forget_seats) with (map forget_seats).
  by rewrite Hr.
Qed.

(** An identifier denotes the same position in two maps that agree up to
    seat counts. *)
Lemma last_with_id_forget (m1 m2 : RouteMap) (id : string) (i j : nat)
    (r : Route) (f : Flight) :
  map forget_route_seats (Map_values m1)
  = map forget_route_seats (Map_values m2) ->
  last_with_id m1 id i j r f ->
  exists r' f', last_with_id m2 id i j r' f'
                /\ forget_route_seats r' = forget_route_seats r
                /\ forget_seats f' = forget_seats f.
Proof.
  intros H Hlast.
  pose proof (last_with_id_flight_at _ _ _ _ _ _ Hlast) as Hat.
  destruct Hlast as (Hr & Hf & Hid & Hmax).
  destruct (forget_flight_at _ _ H i) as [Hri Hfi].
  specialize (Hfi j). rewrite Hat in Hfi. rewrite Hr in Hri.
  unfold flight_at in Hfi.
  destruct (route_at m2 i) as [r'|] eqn:Hr'; simpl in *; [|done].
  destruct (itineraries r' !! j) as [f'|] eqn:Hf'; simpl in *; [|done].
  apply (inj Some) in Hri. apply (inj Some) in Hfi.
  exists r', f'. repeat split; trivial; try (by symmetry).
  - rewrite <- Hid. by apply (f_equal flight_id) in Hfi.
  - intros i' j' f2 Hat2 Hid2.
    destruct (forget_flight_at _ _ H i') as [_ Hfi'].
    specialize (Hfi' j'). rewrite Hat2 in Hfi'.
    destruct (flight_at m1 i' j') as [f1|] eqn:Hat1; simpl in *; [|done].
    apply (inj Some) in Hfi'. apply (Hmax _ _ _ Hat1).
    rewrite <- Hid2. by apply (f_equal flight_id) in Hfi'.
Qed.

(** X5.  A booking request, whatever its outcome, leaves the keys of the
    map and, up to seat counts, its routes as they are: [GET /routes] and
    [GET /routes/:route_id] answer afterwards with the same routes and the
    same flights, in the same order, with other seat counts at most. *)
Theorem book_keeps_routes (m : RouteMap) (name id : string) (n : Z) :
  map fst (fst (book m name id n)) = map fst m
  /\ map forget_route_seats (Map_values (fst (book m name id n)))
     = map forget_route_seats (Map_values m)
  /\ forall k,
       forget_route_seats <$> Map_get k (fst (book m name id n))
       = forget_route_seats <$> Map_get k m.
Proof.
  destruct (book_forget m name id n) as [Hk Hv]. repeat split; trivial.
  intros k. by apply Map_get_forget.
Qed.

(** X6.  A booking request never changes which flight an identifier
    denotes: the last flight with an identifier stands at the same
    position of the map before and after the request. *)
Theorem book_keeps_identifiers (m : RouteMap) (name id : string) (n : Z)
    (id' : string) (i j : nat) :
  (exists r f, last_with_id (fst (book m name id n)) id' i j r f)
  <-> (exists r f, last_with_id m id' i j r f).
Proof.
  destruct (book_forget m name id n) as [_ Hv]. split.
  - intros (r & f & H).
    destruct (last_with_id_forget _ m _ _ _ _ _ Hv H) as (r' & f' & H' & _).
    by exists r', f'.
  - intros (r & f & H). symmetry in Hv.
    destruct (last_with_id_forget _ _ _ _ _ _ _ Hv H) as (r' & f' & H' & _).
    by exists r', f'.
Qed.

(** ** Bookings one after the other *)


Lemma take_seats_zero (f : Flight) : take_seats 0 f = f.
Proof.
  destruct f. unfold take_seats, set_availableSeats. simpl. f_equal. lia.
Qed.


Lemma update_flight_zero (m : RouteMap) (i j : nat) :
  update_flight m i j (take_seats 0) = m.
Proof.
  unfold update_flight. apply list_alter_id. intros [k r]. simpl.
  f_equal. destruct r. unfold set_itineraries. simpl. f_equal.
  apply list_alter_id, take_seats_zero.
Qed.







(** X9.  A booking of no seat at all on a flight whose seat count is not
    negative is accepted: the answer is a 200 confirmation with a total
    price of 0 and the map is the same. *)
Theorem book_zero_seats (m : RouteMap) (name id : string)
    (i j : nat) (r : Route) (f : Flight) :
  last_with_id m id i j r f ->
  0 <= availableSeats f ->
  exists c, book m name id 0 = (m, res_json 200 c) /\ totalPrice c = 0.
Proof.
  intros Hlast Hs. exists (confirmation name id 0 r f).
  rewrite (book_last _ _ _ _ _ _ _ _ Hlast).
  destruct (Z.ltb_spec (availableSeats f) 0); [lia|].
  by rewrite update_flight_zero.
Qed.

Lemma book_zero_seats_witness :
  last_with_id sample "F4" 2 0 routeC F4
  /\ 0 <= availableSeats F4
  /\ exists c, book sample "Ann" "F4" 0 = (sample, res_json 200 c)
               /\ totalPrice c = 0.
Proof.
  split; [exact sample_last_F4|]. split; [simpl; lia|].
  apply (book_zero_seats sample "Ann" "F4" 2 0 routeC F4).
  - exact sample_last_F4.
  - simpl; lia.
Defined.


(** ** Lists *)

Lemma flat_map_transport {A B A' B' : Type} (F : A -> A') (G : B -> B')
    (h : A -> list B) (h' : A' -> list B') (l : list A) :
  (forall x, map G (h x) = h' (F x)) ->
  map G (flat_map h l) = flat_map h' (map F l).
Proof.
  intros H. induction l as [|x l IH]; simpl; [done|].
  by rewrite List.map_app, H, IH.
Qed.

Lemma filter_transport {A A' : Type} (F : A -> A') (p : A -> bool)
    (p' : A' -> bool) (l : list A) :
  (forall x, p' (F x) = p x) ->
  List.filter p' (map F l) = map F (List.filter p l).
Proof.
  intros H. induction l as [|x l IH]; simpl; [done|].
  rewrite H. destruct (p x); simpl; by rewrite IH.
Qed.

Lemma snd_indexed {A : Type} (l : list A) : map snd (indexed l) = l.
Proof.
  induction l as [|x l IH] using rev_ind; [done|].
  by rewrite indexed_snoc, List.map_app, IH.
Qed.

Section MoreSearches.

Variable Date_parse : string -> option Z.
Variable Number_toString_frac : Q -> string.

Lemma nested_connections_among (m : RouteMap) (dep arr : string)
    (departureTime arrivalTime : option string) :
  nested_connections Date_parse Number_toString_frac m dep arr
                     departureTime arrivalTime
  = connections_among Date_parse Number_toString_frac (Map_values m)
                      dep arr departureTime arrivalTime.
Proof. reflexivity. Qed.

(** The search for connections does not read seat counts. *)
Lemma connections_among_forget (rs : list Route) (dep arr : string)
    (departureTime arrivalTime : option string) :
  map forget_connection_seats
      (connections_among Date_parse Number_toString_frac rs dep arr
                         departureTime arrivalTime)
  = connections_among Date_parse Number_toString_frac
                      (map forget_route_seats rs) dep arr
                      departureTime arrivalTime.
Proof.
  unfold connections_among.
  rewrite (filter_transport forget_route_seats
             (fun route => String.eqb (departureDestination route) dep)
             (fun route => String.eqb (departureDestination route) dep))
    by done.
  apply flat_map_transport. intros d.
  rewrite (filter_transport forget_route_seats
             (fun route => String.eqb (arrivalDestination route) arr)
             (fun route => String.eqb (arrivalDestination route) arr))
    by done.
  apply flat_map_transport. intros a.
  change (itineraries (forget_route_seats d))
    with (map forget_seats (itineraries d)).
  apply flat_map_transport. intros fd.
  change (itineraries (forget_route_seats a))
    with (map forget_seats (itineraries a)).
  apply flat_map_transport. intros fa.
  change (connects Date_parse departureTime arrivalTime
            (forget_route_seats d) (forget_route_seats a)
            (forget_seats fd) (forget_seats fa))
    with (connects Date_parse departureTime arrivalTime d a fd fa).
  by destruct (connects _ _ _ _ _ _ _).
Qed.

Lemma connectingFlights_forget (m1 m2 : RouteMap) (dep arr : string)
    (departureTime arrivalTime : option string) :
  map forget_route_seats (Map_values m1)
  = map forget_route_seats (Map_values m2) ->
  map forget_connection_seats
      (connectingFlights Date_parse Number_toString_frac m1 dep arr
                         departureTime arrivalTime)
  = map forget_connection_seats
        (connectingFlights Date_parse Number_toString_frac m2 dep arr
                           departureTime arrivalTime).
Proof.
  intros H.
  rewrite !connectingFlights_nested, !nested_connections_among.
  by rewrite !connections_among_forget, H.
Qed.

(** The flights of the direct-flight search without their positions. *)
Lemma directFlights_filter (m : RouteMap) (dep arr : string)
    (departureTime arrivalTime : option string) :
  directFlights Date_parse m dep arr departureTime arrivalTime
  = flat_map
      (fun r => List.filter
                  (fun f => (0 <? availableSeats f)
                            && in_window Date_parse departureTime
                                         arrivalTime f)
                  (itineraries r))
      (List.filter (is_direct dep arr) (Map_values m)).
Proof.
  unfold directFlights. rewrite directFlightsSet_eq.
  unfold directRoutes, direct_candidates.
  rewrite <- (snd_indexed (Map_values m)) at 2.
  rewrite (filter_transport snd
             (fun ir : nat * Route => is_direct dep arr (snd ir))
             (is_direct dep arr))
    by done.
  apply flat_map_transport. intros [i r]. simpl.
  rewrite map_map. simpl.
  rewrite <- (snd_indexed (itineraries r)) at 2.
  by rewrite (filter_transport snd
                (fun jf : nat * Flight =>
                   (0 <? availableSeats (snd jf))
                   && in_window Date_parse departureTime arrivalTime
                                (snd jf))
                (fun f : Flight =>
                   (0 <? availableSeats f)
                   && in_window Date_parse departureTime arrivalTime f)).
Qed.

Lemma elem_of_directFlightsSet_at (m : RouteMap) (dep arr : string)
    (departureTime arrivalTime : option string) (i j : nat) (f : Flight) :
  ((i, j), f) ∈ directFlightsSet Date_parse m dep arr
                                 departureTime arrivalTime
  <-> flight_at m i j = Some f
      /\ departureDestination <$> route_at m i = Some dep
      /\ arrivalDestination <$> route_at m i = Some arr
      /\ 0 < availableSeats f
      /\ within_a_day Date_parse departureTime (departureAt f)
      /\ within_a_day Date_parse arrivalTime (arrivalAt f).
Proof.
  rewrite elem_of_directFlightsSet. unfold direct_match, flight_at. split.
  - intros (r & -> & Hj & <- & <- & Hrest). simpl. tauto.
  - intros (Hat & Hd & Ha & Hrest).
    destruct (route_at m i) as [r|]; simpl in *; [|done].
    exists r. injection Hd as Hd. injection Ha as Ha. tauto.
Qed.

End MoreSearches.

(** ** More on the two searches *)

(** X11.  The flights of a direct-flight answer stand in the order of the
    data: matching routes in map order, and within a route the flights
    with a seat and within the time windows in array order.  The set
    through which the handler passes them never drops one, not even one
    that is equal, field by field, to another. *)
Theorem direct_flights_in_order
    (Date_parse : string -> option Z)
    (m : RouteMap) (dep arr : string)
    (departureTime arrivalTime : option string) :
  directFlights Date_parse m dep arr departureTime arrivalTime
  = flat_map
      (fun r => List.filter
                  (fun f => (0 <? availableSeats f)
                            && in_window Date_parse departureTime
                                         arrivalTime f)
                  (itineraries r))
      (List.filter
         (fun r => String.eqb (departureDestination r) dep
                   && String.eqb (arrivalDestination r) arr)
         (Map_values m)).
Proof. apply directFlights_filter. Qed.

(** X12.  A direct-flight query with a time hint that is a non-empty
    string but not a date answers 404, whatever the data. *)
Theorem direct_flights_bad_hint
    (Date_parse : string -> option Z)
    (m : RouteMap) (dep arr : string)
    (departureTime arrivalTime : option string) :
  (truthy departureTime = true
   /\ Date_getTime_query Date_parse departureTime = None)
  \/ (truthy arrivalTime = true
      /\ Date_getTime_query Date_parse arrivalTime = None) ->
  direct_flights Date_parse m dep arr departureTime arrivalTime
  = res_error 404 "No direct flights available".
Proof.
  intros Hbad. unfold direct_flights, directFlights.
  destruct (directFlightsSet Date_parse m dep arr departureTime arrivalTime)
    as [|[[i j] f] l] eqn:E; [done|].
  assert (Hin : ((i, j), f) ∈ directFlightsSet Date_parse m dep arr
                                 departureTime arrivalTime).
  { rewrite E. by left. }
  apply elem_of_directFlightsSet in Hin
    as (r & _ & _ & _ & _ & _ & Hd & Ha).
  destruct Hbad as [[Ht Hnone]|[Ht Hnone]].
  - destruct (Hd Ht) as (th & tf & Hth & _). congruence.
  - destruct (Ha Ht) as (th & tf & Hth & _). congruence.
Qed.

Lemma direct_flights_bad_hint_witness :
  ((truthy (Some "tomorrow") = true
    /\ Date_getTime_query iso_parse (Some "tomorrow") = None)
   \/ (truthy None = true /\ Date_getTime_query iso_parse None = None))
  /\ direct_flights iso_parse sample "X" "Z" (Some "tomorrow") None
     = res_error 404 "No direct flights available".
Proof.
  assert (H : (truthy (Some "tomorrow") = true
               /\ Date_getTime_query iso_parse (Some "tomorrow") = None)
              \/ (truthy None = true
                  /\ Date_getTime_query iso_parse None = None)).
  { left. split; reflexivity. }
  split; [exact H|].
  exact (direct_flights_bad_hint iso_parse sample "X" "Z"
           (Some "tomorrow") None H).
Defined.

(** X13.  In every entry of a connecting-flight answer the two legs are
    the locations of two routes of the map: the first flight is a flight
    of the route of the first leg, which departs from the requested
    departure location, and the second flight is a flight of the route of
    the second leg, which arrives at the requested arrival location. *)
Theorem connection_legs
    (Date_parse : string -> option Z) (Number_toString_frac : Q -> string)
    (m : RouteMap) (dep arr : string)
    (departureTime arrivalTime : option string) :
  exists es,
    connection_flights Date_parse Number_toString_frac m dep arr
                       departureTime arrivalTime
    = res_json 200 es
    /\ Forall (fun e =>
         exists d a,
           d ∈ Map_values m /\ a ∈ Map_values m
           /\ out_departureFlight e ∈ itineraries d
           /\ out_arrivalFlight e ∈ itineraries a
           /\ departureDestination d = dep /\ arrivalDestination a = arr
           /\ out_route e
              = {| departureRoute :=
                     mkLeg (departureDestination d) (arrivalDestination d);
                   arrivalRoute :=
                     mkLeg (departureDestination a) (arrivalDestination a) |})
         es.
Proof.
  eexists. split; [reflexivity|]. apply Forall_forall.
  intros e (c & -> & Hc)%list_elem_of_fmap.
  apply elem_of_connectingFlights in Hc
    as (d & a & fd & fa & Hd & Ha & Hfd & Hfa & Hdep & Harr & Hv & ->).
  destruct Hv as (Hda & _). exists d, a. simpl.
  repeat split; trivial. by rewrite Hda, Harr.
Qed.

(** X14.  A connecting-flight query with a departure-time hint that is a
    non-empty string but not a date answers 200 with the empty array,
    whatever the data. *)
Theorem connection_flights_bad_hint
    (Date_parse : string -> option Z) (Number_toString_frac : Q -> string)
    (m : RouteMap) (dep arr : string)
    (departureTime arrivalTime : option string) :
  truthy departureTime = true ->
  Date_getTime_query Date_parse departureTime = None ->
  connection_flights Date_parse Number_toString_frac m dep arr
                     departureTime arrivalTime
  = res_json 200 [].
Proof.
  intros Ht Hnone. unfold connection_flights.
  destruct (connectingFlights Date_parse Number_toString_frac m dep arr
                              departureTime arrivalTime)
    as [|c l] eqn:E; [done|].
  assert (Hin : c ∈ connectingFlights Date_parse Number_toString_frac m
                      dep arr departureTime arrivalTime).
  { rewrite E. by left. }
  apply elem_of_connectingFlights in Hin
    as (d & a & fd & fa & _ & _ & _ & _ & _ & _ & Hv & _).
  destruct Hv as (_ & _ & _ & Hd & _).
  destruct (Hd Ht) as (t & th & _ & Hth & _). congruence.
Qed.

Lemma connection_flights_bad_hint_witness :
  truthy (Some "tomorrow") = true
  /\ Date_getTime_query iso_parse (Some "tomorrow") = None
  /\ connection_flights iso_parse no_fraction two_legs "X" "Z"
                        (Some "tomorrow") None
     = res_json 200 [].
Proof.
  split; [reflexivity|]. split; [reflexivity|].
  apply (connection_flights_bad_hint iso_parse no_fraction two_legs
           "X" "Z" (Some "tomorrow") None); reflexivity.
Defined.

(** X15.  Time hints only narrow the answers: a flight of a direct-flight
    answer with hints is in the answer to the same query without hints,
    and so is an entry of a connecting-flight answer. *)
Theorem hints_only_narrow
    (Date_parse : string -> option Z) (Number_toString_frac : Q -> string)
    (m : RouteMap) (dep arr : string)
    (departureTime arrivalTime : option string) :
  (forall f,
     f ∈ directFlights Date_parse m dep arr departureTime arrivalTime ->
     f ∈ directFlights Date_parse m dep arr None None)
  /\ (forall c,
        c ∈ connectingFlights Date_parse Number_toString_frac m dep arr
                              departureTime arrivalTime ->
        c ∈ connectingFlights Date_parse Number_toString_frac m dep arr
                              None None).
Proof.
  split.
  - unfold directFlights. intros f ([[i j] f'] & -> & Hin)%list_elem_of_fmap.
    apply list_elem_of_fmap. exists ((i, j), f'). split; [done|].
    apply elem_of_directFlightsSet in Hin
      as (r & Hr & Hj & Hd & Ha & Hs & _).
    apply elem_of_directFlightsSet. exists r.
    unfold direct_match, within_a_day. simpl.
    repeat split; trivial; discriminate.
  - intros c Hc. apply elem_of_connectingFlights in Hc
      as (d & a & fd & fa & Hd & Ha & Hfd & Hfa & Hdep & Harr & Hv & ->).
    apply elem_of_connectingFlights. exists d, a, fd, fa.
    repeat split; trivial; try apply Hv; simpl; discriminate.
Qed.

(** X16.  After a booking of all the seats of a flight, no direct-flight
    query finds that flight object any more, and every other flight
    object is found by exactly the queries that found it before. *)
Theorem book_sold_out (m : RouteMap) (name id : string)
    (i j : nat) (r : Route) (f : Flight) :
  last_with_id m id i j r f ->
  forall (Date_parse : string -> option Z) (dep arr : string)
         (departureTime arrivalTime : option string),
    (forall f',
       ((i, j), f') ∉ directFlightsSet Date_parse
                        (fst (book m name id (availableSeats f)))
                        dep arr departureTime arrivalTime)
    /\ (forall i' j' f', (i', j') <> (i, j) ->
          ((i', j'), f') ∈ directFlightsSet Date_parse
                             (fst (book m name id (availableSeats f)))
                             dep arr departureTime arrivalTime
          <-> ((i', j'), f') ∈ directFlightsSet Date_parse m
                                 dep arr departureTime arrivalTime).
Proof.
  intros Hlast Date_parse dep arr departureTime arrivalTime.
  rewrite (book_last _ _ _ _ _ _ _ _ Hlast), Z.ltb_irrefl. simpl.
  pose proof (last_with_id_flight_at _ _ _ _ _ _ Hlast) as Hat.
  split.
  - intros f' (Hat' & _ & _ & Hs & _)%elem_of_directFlightsSet_at.
    rewrite (flight_at_taken _ _ _ _ _ Hat) in Hat'.
    apply (inj Some) in Hat'. subst f'. simpl in Hs. lia.
  - intros i' j' f' Hne. rewrite !elem_of_directFlightsSet_at.
    rewrite flight_at_untouched by done.
    destruct (route_at_update m i j (take_seats (availableSeats f)) i')
      as (_ & -> & -> & _).
    done.
Qed.

Lemma book_sold_out_witness :
  last_with_id sample "F4" 2 0 routeC F4
  /\ forall (Date_parse : string -> option Z) (dep arr : string)
            (departureTime arrivalTime : option string),
       (forall f',
          ((2, 0)%nat, f') ∉ directFlightsSet Date_parse
                        (fst (book sample "Ann" "F4" (availableSeats F4)))
                        dep arr departureTime arrivalTime)
       /\ (forall i' j' f', (i', j') <> (2, 0)%nat ->
             ((i', j'), f') ∈ directFlightsSet Date_parse
                                (fst (book sample "Ann" "F4"
                                           (availableSeats F4)))
                                dep arr departureTime arrivalTime
             <-> ((i', j'), f') ∈ directFlightsSet Date_parse sample
                                    dep arr departureTime arrivalTime).
Proof.
  split; [exact sample_last_F4|].
  exact (book_sold_out sample "Ann" "F4" 2 0 routeC F4 sample_last_F4).
Defined.

(** X17.  A booking request, whatever its outcome, leaves the answer to
    every connecting-flight query as it is up to the seat counts shown in
    it: the same pairs of flights in the same order, with the same
    layovers. *)
Theorem book_keeps_connections
    (Date_parse : string -> option Z) (Number_toString_frac : Q -> string)
    (m : RouteMap) (name id : string) (n : Z) (dep arr : string)
    (departureTime arrivalTime : option string) :
  map forget_connection_seats
      (connectingFlights Date_parse Number_toString_frac
                         (fst (book m name id n)) dep arr
                         departureTime arrivalTime)
  = map forget_connection_seats
        (connectingFlights Date_parse Number_toString_frac m dep arr
                           departureTime arrivalTime).
Proof.
  apply connectingFlights_forget. by destruct (book_forget m name id n).
Qed.
